(** * Wedding registry web app: a shallow embedding of registry-apps-script.js

  The script is a small REST facade over one sheet of a spreadsheet:
  [doGet] lists the registry items, [doPost] marks one row as claimed.

  Modelling conventions.
  - JavaScript strings are [string]s whose characters are code units below
    256 (the Latin-1 range); [toLowerCase] and [trim] are the restrictions
    of the ECMAScript operations to that range.
  - JavaScript numbers are integers ([Z]) of absolute value below 10^21,
    the numbers that [toString] prints as a plain decimal numeral; fractions
    and the numbers printed in exponent notation are not modelled.
  - What the runtime provides and the script only calls ([JSON.parse],
    [JSON.stringify], [Date.prototype.toString], the text of a [TypeError])
    is a parameter of the development.
  - The spreadsheet is the mutable store.  Handlers are written in a state
    and exception monad over it. *)

From Stdlib Require Import ZArith String Ascii List Bool Lia DecimalString.
From stdpp Require Import gmap strings list fin_maps.

Local Set Warnings "-register-all".
Local Open Scope string_scope.
Local Open Scope Z_scope.

(** ** JavaScript values *)

(** The scalar values that a sheet cell, a JSON leaf or a missing array slot
    can be.  [VDate t] is a [Date] object holding [t] ms since the epoch. *)
Inductive Value : Type :=
  | VUndefined
  | VNull
  | VBool (b : bool)
  | VNum (n : Z)
  | VStr (s : string)
  | VDate (t : Z).

(** Structured data: what [JSON.parse] returns and what [JSON.stringify]
    receives. *)
Inductive Data : Type :=
  | DVal (v : Value)
  | DArr (items : list Data)
  | DObj (fields : list (string * Data)).

(** ToBoolean: [!v] is [negb (truthy v)].  Objects ([Date]) are truthy. *)
Definition truthy (v : Value) : bool :=
  match v with
  | VUndefined | VNull => false
  | VBool b => b
  | VNum n => negb (n =? 0)
  | VStr s => negb (String.eqb s "")
  | VDate _ => true
  end.

(** [a || b] on values. *)
Definition js_or (a b : Value) : Value := if truthy a then a else b.

(** ** Strings *)

Module JsString.

Definition code (c : ascii) : N := N_of_ascii c.

(** Upper-case letters of the Latin-1 range: A-Z, and U+00C0..U+00DE
    without the multiplication sign U+00D7. *)
Definition is_upper (c : ascii) : bool :=
    let n := code c in
    ((65 <=? n) && (n <=? 90) ||
     (192 <=? n) && (n <=? 222) && negb (n =? 215))%N.

Definition lower_char (c : ascii) : ascii :=
    if is_upper c then ascii_of_N (code c + 32) else c.

Fixpoint toLowerCase (s : string) : string :=
    match s with
    | EmptyString => EmptyString
    | String c r => String (lower_char c) (toLowerCase r)
    end.

(** WhiteSpace and LineTerminator code units below 256:
    TAB, LF, VT, FF, CR, SP and NBSP. *)
Definition is_space (c : ascii) : bool :=
    let n := code c in
    ((9 <=? n) && (n <=? 13) || (n =? 32) || (n =? 160))%N.

Fixpoint trimStart (s : string) : string :=
    match s with
    | EmptyString => EmptyString
    | String c r => if is_space c then trimStart r else s
    end.

Fixpoint trimEnd (s : string) : string :=
    match s with
    | EmptyString => EmptyString
    | String c r =>
        match trimEnd r with
        | EmptyString => if is_space c then EmptyString else String c EmptyString
        | r' => String c r'
        end
    end.

Definition trim (s : string) : string := trimEnd (trimStart s).

(** The double quote, for messages that contain one. *)
Definition dquote : string := String "034"%char EmptyString.

End JsString.
Import JsString.

(** Number.prototype.toString on an integer of absolute value below 10^21:
    the decimal numeral, all digits written.  From 10^21 on JavaScript
    prints exponent notation, which this text does not follow. *)
Definition Number_toString (n : Z) : string :=
  NilZero.string_of_int (Z.to_int n).

(** ** The spreadsheet *)

(** A sheet is a sparse grid: cell (row, column), both 1-based, to content.
    A cell that is absent, or that holds the empty string, is an empty cell
    and reads as the empty string. *)
Abbreviation Sheet := (gmap (Z * Z) Value).

Definition is_empty_cell (v : Value) : bool :=
  match v with
  | VStr s => String.eqb s ""
  | _ => false
  end.

(** [sheet.getRange(row, column).getValue()] *)
Definition cell (sh : Sheet) (row column : Z) : Value :=
  default (VStr "") (sh !! (row, column)).

(** [sheet.getLastRow()]: the last row that has content, 0 on an empty
    sheet. *)
Definition last_row (sh : Sheet) : Z :=
  foldr (fun '(rc, v) acc => if is_empty_cell v then acc else Z.max (fst rc) acc)
        0 (map_to_list sh).

(** [sheet.getLastColumn()] *)
Definition last_column (sh : Sheet) : Z :=
  foldr (fun '(rc, v) acc => if is_empty_cell v then acc else Z.max (snd rc) acc)
        0 (map_to_list sh).

(** [sheet.getDataRange().getValues()]: the rectangle from A1 to the last
    row and the last column with content, row by row; the single cell A1 on
    an empty sheet. *)
Definition data_range_values (sh : Sheet) : list (list Value) :=
  let rows := seqZ 1 (Z.max 1 (last_row sh)) in
  let columns := seqZ 1 (Z.max 1 (last_column sh)) in
  (fun r => (fun c => cell sh r c) <$> columns) <$> rows.

(** The store: the sheets of the active spreadsheet by name, and the clock
    that [new Date()] reads. *)
Record World : Type := mkWorld {
  sheets : gmap string Sheet;
  clock : Z
  }.

(** ** The handler monad *)

(** A call returns, throws an [Error] with a message, or leaves what is
    modelled (an argument whose coercion by the host is not part of the
    script). *)
Inductive Outcome (A : Type) : Type :=
  | Returns (a : A)
  | Throws (message : string)
  | Unmodelled.
Arguments Returns {A} a.
Arguments Throws {A} message.
Arguments Unmodelled {A}.

Definition M (A : Type) : Type := World -> Outcome A * World.

Definition ret {A} (a : A) : M A := fun w => (Returns a, w).

Definition throw {A} (message : string) : M A := fun w => (Throws message, w).

Definition unmodelled {A} : M A := fun w => (Unmodelled, w).

Definition bind {A B} (m : M A) (k : A -> M B) : M B :=
  fun w =>
    match m w with
    | (Returns a, w') => k a w'
    | (Throws message, w') => (Throws message, w')
    | (Unmodelled, w') => (Unmodelled, w')
    end.

(** [try { body } catch (error) { handler(error.message) }] *)
Definition try_catch {A} (body : M A) (handler : string -> M A) : M A :=
  fun w =>
    match body w with
    | (Throws message, w') => handler message w'
    | r => r
    end.

Notation "'let*' x ':=' m 'in' k" := (bind m (fun x => k))
  (at level 10, x name, m at level 100, k at level 200).
Notation "m ';;' k" := (bind m (fun _ => k))
  (at level 100, k at level 200, right associativity).

(** A sheet handle is the name of the sheet in the store. *)
Abbreviation SheetRef := string (only parsing).

(** [SpreadsheetApp.getActiveSpreadsheet().getSheetByName(name)]; [None] is
    [null]. *)
Definition getSheetByName (name : string) : M (option SheetRef) :=
  fun w => (Returns (match sheets w !! name with
                     | Some _ => Some name
                     | None => None
                     end), w).

Definition the_sheet (w : World) (sheet : SheetRef) : Sheet :=
  default ∅ (sheets w !! sheet).

Definition getLastRow (sheet : SheetRef) : M Z :=
  fun w => (Returns (last_row (the_sheet w sheet)), w).

Definition getValues (sheet : SheetRef) : M (list (list Value)) :=
  fun w => (Returns (data_range_values (the_sheet w sheet)), w).

Definition getValue (sheet : SheetRef) (row column : Z) : M Value :=
  fun w => (Returns (cell (the_sheet w sheet) row column), w).

Definition setValue (sheet : SheetRef) (row column : Z) (v : Value) : M unit :=
  fun w => (Returns tt,
            mkWorld (<[sheet := <[(row, column) := v]> (the_sheet w sheet)]> (sheets w))
                    (clock w)).

(** [new Date()] *)
Definition new_Date : M Value :=
  fun w => (Returns (VDate (clock w)), w).

(** ** Requests and responses *)

(** The POST event; only [e.postData.contents] is read. *)
Record PostData : Type := mkPostData { contents : string }.
Record Event : Type := mkEvent { postData : PostData }.

(** [ContentService.MimeType] *)
Inductive MimeType : Type :=
  | ATOM | CSV | ICAL | JAVASCRIPT | JSON | RSS | TEXT | VCARD | XML.

(** A [TextOutput]: the text served and its content type.  It has no field
    for a status code. *)
Record TextOutput : Type := mkTextOutput {
  content : string;
  mimeType : MimeType
}.

Definition createTextOutput (text : string) : TextOutput :=
  mkTextOutput text TEXT.

Definition setMimeType (output : TextOutput) (m : MimeType) : TextOutput :=
  mkTextOutput (content output) m.

(** ** A host to run the handlers on examples

    The properties below hold for every host.  This one stands in for the
    runtime when a handler is evaluated on a concrete request. *)
Module SampleHost.

Definition Date_toString (t : Z) : string :=
  "Date(" +:+ Number_toString t +:+ ")".

Definition TypeError_message (v : Value) (p : string) : string :=
  "Cannot read properties of " +:+
  (match v with VNull => "null" | _ => "undefined" end) +:+
  " (reading '" +:+ p +:+ "')".

Fixpoint escape (s : string) : string :=
  match s with
  | EmptyString => EmptyString
  | String c r =>
      if Ascii.eqb c "034"%char then String "\"%char (String c (escape r))
      else if Ascii.eqb c "\"%char then String c (String c (escape r))
      else String c (escape r)
  end.

Definition quoted (s : string) : string := dquote +:+ escape s +:+ dquote.

Definition stringify_value (v : Value) : string :=
  match v with
  | VUndefined | VNull => "null"
  | VBool true => "true"
  | VBool false => "false"
  | VNum n => Number_toString n
  | VStr s => quoted s
  | VDate t => quoted (Date_toString t)
  end.

(** A plain serializer, enough for the payloads of the script; a [Date] is
    written with its [toString] text. *)
Fixpoint JSON_stringify (d : Data) : string :=
  match d with
  | DVal v => stringify_value v
  | DArr items => "[" +:+ String.concat "," (map JSON_stringify items) +:+ "]"
  | DObj fields =>
      "{" +:+
      String.concat ","
        (map (fun f => quoted (fst f) +:+ ":" +:+ JSON_stringify (snd f)) fields)
      +:+ "}"
  end.

(** The request bodies of the examples. *)
Definition delete_request : Data :=
  DObj [("action", DVal (VStr "delete")); ("rowIndex", DVal (VNum 2))].

Definition claim_request : Data :=
  DObj [("action", DVal (VStr "claim")); ("rowIndex", DVal (VNum 2));
        ("claimedBy", DVal (VStr "Alex"))].

(** A parser that knows the bodies of the examples and rejects every other
    text. *)
Definition JSON_parse (text : string) : string + Data :=
  if String.eqb text (JSON_stringify delete_request) then inr delete_request
  else if String.eqb text (JSON_stringify claim_request) then inr claim_request
  else inl "Unexpected token".

(** The sheet of the examples.  Row 1 is the header; row 2 is an unclaimed
    item; row 3 has no product name but a manufacturer; row 4 is an item
    that Sam has claimed. *)
Definition registry_sheet : Sheet :=
  list_to_map
    [ ((1, 1), VStr "Product Name"); ((1, 2), VStr "Brand");
      ((1, 6), VStr "Claimed");
      ((2, 1), VStr "Toaster"); ((2, 2), VStr "Acme");
      ((3, 2), VStr "Acme");
      ((4, 1), VStr "Kettle"); ((4, 6), VStr "Yes"); ((4, 7), VStr "Sam") ].

Definition world : World :=
  mkWorld {[ "REGISTRY" := registry_sheet ]} 1767225600000.

Definition delete_event : Event :=
  mkEvent (mkPostData (JSON_stringify delete_request)).

Definition claim_event : Event :=
  mkEvent (mkPostData (JSON_stringify claim_request)).

Definition malformed_event : Event :=
  mkEvent (mkPostData "{action:").

(** A parser that also knows the literal [null]. *)
Definition JSON_parse_null (text : string) : string + Data :=
  if String.eqb text "null" then inr (DVal VNull) else JSON_parse text.

Definition null_event : Event :=
  mkEvent (mkPostData "null").

(** A spreadsheet with no sheet called REGISTRY. *)
Definition world_without_registry : World :=
  mkWorld {[ "Sheet1" := registry_sheet ]} 1767225600000.

(** A spreadsheet whose REGISTRY sheet holds its header row and nothing
    else. *)
Definition header_world : World :=
  mkWorld {[ "REGISTRY" := {[ (1, 1) := VStr "Product Name" ]} ]} 1767225600000.

(** A sheet with the header and a single item. *)
Definition single_item_sheet : Sheet :=
  list_to_map
    [ ((1, 1), VStr "Product Name"); ((1, 2), VStr "Brand");
      ((2, 1), VStr "Toaster"); ((2, 2), VStr "Acme") ].

(** The sample sheet beside a second sheet of the same spreadsheet. *)
Definition guests_sheet : Sheet :=
  {[ (1, 1) := VStr "Name" ]}.

Definition world_with_guests : World :=
  mkWorld (<["Guests" := guests_sheet]> {[ "REGISTRY" := registry_sheet ]})
          1767225600000.

End SampleHost.

Section Script.

(** ** The runtime *)

(** [Date.prototype.toString]: the text depends on the time zone of the
    host. *)
Variable Date_toString : Z -> string.

(** [JSON.parse]: the parsed data, or the message of the [SyntaxError]. *)
Variable JSON_parse : string -> string + Data.

Variable JSON_stringify : Data -> string.

(** The message of the [TypeError] raised when property [p] is read from
    [null] or [undefined]. *)
Variable TypeError_message : Value -> string -> string.

(** [v.toString()].  Both call sites run it behind a falsiness test, so
    [undefined] and [null] never reach it; they are given the text of
    [String(v)]. *)
Definition toString (v : Value) : string :=
    match v with
    | VUndefined => "undefined"
    | VNull => "null"
    | VBool true => "true"
    | VBool false => "false"
    | VNum n => Number_toString n
    | VStr s => s
    | VDate t => Date_toString t
    end.

(** ** isClaimed *)

Definition isClaimed (value : Value) : bool :=
    if negb (truthy value) then false
    else
      let strValue := trim (toLowerCase (toString value)) in
      String.eqb strValue "true" || String.eqb strValue "yes" ||
      String.eqb strValue "claimed" || String.eqb strValue "x".

(** ** The script *)

Definition SHEET_NAME : string := "REGISTRY".

Definition sheet_not_found : string :=
  "Sheet " +:+ dquote +:+ SHEET_NAME +:+ dquote +:+ " not found".

(** [row[k]]: [undefined] past the end of the array. *)
Definition at_index (row : list Value) (k : nat) : Value :=
  default VUndefined (row !! k).

(** The test of [if (!row[0] || row[0].toString().trim() === '') continue]. *)
Definition skipped (row : list Value) : bool :=
  negb (truthy (at_index row 0)) ||
  String.eqb (trim (toString (at_index row 0))) "".

(** The object literal pushed for [data[i]]. *)
Definition make_item (i : nat) (row : list Value) : Data :=
  DObj [ ("id", DVal (VNum (Z.of_nat i)));
         ("productName", DVal (js_or (at_index row 0) (VStr "")));
         ("manufacturer", DVal (js_or (at_index row 1) (VStr "")));
         ("price", DVal (js_or (at_index row 2) (VStr "")));
         ("productUrl", DVal (js_or (at_index row 3) (VStr "")));
         ("imageUrl", DVal (js_or (at_index row 4) (VStr "")));
         ("claimed", DVal (VBool (isClaimed (at_index row 5))));
         ("claimedBy", DVal (js_or (at_index row 6) (VStr ""))) ].

(** The [for] loop, entered at index [i] with [rest] the rows
    [data[i], data[i+1], ...] still to visit and [items] the array built so
    far. *)
Fixpoint for_rows (i : nat) (rest : list (list Value)) (items : list Data)
  : list Data :=
  match rest with
  | [] => items
  | row :: rest' =>
      if skipped row then for_rows (S i) rest' items
      else for_rows (S i) rest' (items ++ [make_item i row])
  end.

(** The part of [getRegistryData] that follows the read of the data range. *)
Definition registry_items (data : list (list Value)) : list Data :=
  if (length data <? 2)%nat then []
  else for_rows 1 (drop 1 data) [].

Definition getRegistryData : M Data :=
  let* sheet := getSheetByName SHEET_NAME in
  match sheet with
  | None => throw sheet_not_found
  | Some sheet =>
      let* data := getValues sheet in
      ret (DObj [("items", DArr (registry_items data))])
  end.

Definition claim_result (success : bool) (message : string) : Data :=
  DObj [("success", DVal (VBool success)); ("message", DVal (VStr message))].

Definition claimItem (rowIndex : Z) (claimedBy : Value) : M Data :=
  let* sheet := getSheetByName SHEET_NAME in
  match sheet with
  | None => throw sheet_not_found
  | Some sheet =>
      let* lastRow := getLastRow sheet in
      if (rowIndex <? 2) || (rowIndex >? lastRow) then
        throw "Invalid row index"
      else
        let* currentValue := getValue sheet rowIndex 6 in
        if isClaimed currentValue then
          ret (claim_result false "Item already claimed")
        else
          setValue sheet rowIndex 6 (VStr "TRUE");;
          (if truthy claimedBy then setValue sheet rowIndex 7 claimedBy
           else ret tt);;
          let* now := new_Date in
          setValue sheet rowIndex 8 now;;
          ret (claim_result true "Item claimed successfully")
  end.

(** [statusCode] has the default 200 in the script; callers that omit it
    pass 200 here. *)
Definition createJsonResponse (data : Data) (statusCode : Z) : TextOutput :=
  let output := setMimeType (createTextOutput (JSON_stringify data)) JSON in
  output.

Definition error_body (message : string) : Data :=
  DObj [("error", DVal (VStr message))].

(** [doGet(e)]; the event [e] is not read. *)
Definition doGet : M TextOutput :=
  try_catch
    (let* data := getRegistryData in
     ret (createJsonResponse data 200))
    (fun message => ret (createJsonResponse (error_body message) 500)).

(** The property [p] of an object literal: the first field of that name,
    [undefined] when there is none. *)
Definition field (fields : list (string * Data)) (p : string) : Data :=
  default (DVal VUndefined)
          (snd <$> find (fun f => String.eqb (fst f) p) fields).

(** [params.p] for the three names the script reads.  None of them is a
    property of a string, a number, a boolean or an array, so only an object
    can have it; reading it from [null] or [undefined] throws. *)
Definition get_property (params : Data) (p : string) : M Data :=
  match params with
  | DVal VUndefined => throw (TypeError_message VUndefined p)
  | DVal VNull => throw (TypeError_message VNull p)
  | DObj fields => ret (field fields p)
  | _ => ret (DVal VUndefined)
  end.

(** [d === 'claim'] *)
Definition is_claim (d : Data) : bool :=
  match d with
  | DVal (VStr s) => String.eqb s "claim"
  | _ => false
  end.

Definition doPost (e : Event) : M TextOutput :=
  try_catch
    (let* params :=
       match JSON_parse (contents (postData e)) with
       | inl message => throw message
       | inr params => ret params
       end in
     let* action := get_property params "action" in
     if is_claim action then
       let* rowIndex := get_property params "rowIndex" in
       let* claimedBy := get_property params "claimedBy" in
       match rowIndex, claimedBy with
       | DVal (VNum rowIndex), DVal claimedBy =>
           let* result := claimItem rowIndex claimedBy in
           ret (createJsonResponse result 200)
       | _, _ => unmodelled
       end
     else
       ret (createJsonResponse (error_body "Invalid action") 400))
    (fun message => ret (createJsonResponse (error_body message) 500)).

(** ** Specification vocabulary *)

(** A first-column value that is empty or only white space. *)
Definition is_blank (v : Value) : bool :=
  match v with
  | VStr s => String.eqb (trim s) ""
  | _ => false
  end.

(** The [id] of a listed item. *)
Definition item_id (it : Data) : Data :=
  match it with
  | DObj fields => field fields "id"
  | _ => DVal VUndefined
  end.

(** The spec's words for the claim flag: the value is not falsy and its
    text, in lower case and trimmed, is one of the four markers. *)
Definition normalizes_to_claimed (v : Value) : Prop :=
  truthy v = true /\
  In (trim (toLowerCase (toString v))) ["true"; "yes"; "claimed"; "x"].

(** The sheet after a successful claim of [row]. *)
Definition claimed_sheet (sh : Sheet) (row : Z) (claimedBy : Value) (now : Z)
  : Sheet :=
  let sh1 := <[(row, 6) := VStr "TRUE"]> sh in
  let sh2 := if truthy claimedBy then <[(row, 7) := claimedBy]> sh1 else sh1 in
  <[(row, 8) := VDate now]> sh2.

(** A response carries a status when the status can be read off it: every
    call of the constructor that yields this response was given it. *)
Definition carries_status (out : TextOutput) (status : Z) : Prop :=
  forall data s, createJsonResponse data s = out -> s = status.

(** Every character of [s] passes the test [p]. *)
Fixpoint all_chars (p : ascii -> bool) (s : string) : bool :=
  match s with
  | EmptyString => true
  | String c r => p c && all_chars p r
  end.

(** The characters of the decimal text of an integer: the digits and the
    minus sign. *)
Definition is_numeral (c : ascii) : bool :=
  let n := code c in
  ((48 <=? n) && (n <=? 57) || (n =? 45))%N.

(** The four markers that [isClaimed] accepts. *)
Definition is_marker (strValue : string) : bool :=
  String.eqb strValue "true" || String.eqb strValue "yes" ||
  String.eqb strValue "claimed" || String.eqb strValue "x".

(** A first cell that the listing loop does not skip. *)
Definition has_name (v : Value) : bool :=
  truthy v && negb (String.eqb (trim (toString v)) "").

(** The property [p] of a listed item. *)
Definition item_field (it : Data) (p : string) : Data :=
  match it with
  | DObj fields => field fields p
  | _ => DVal VUndefined
  end.

(** The item of sheet row [r], written with the cells of the sheet instead
    of the slots of the array that [getValues] returns. *)
Definition row_item (sh : Sheet) (r : Z) : Data :=
  DObj [ ("id", DVal (VNum (r - 1)));
         ("productName", DVal (js_or (cell sh r 1) (VStr "")));
         ("manufacturer", DVal (js_or (cell sh r 2) (VStr "")));
         ("price", DVal (js_or (cell sh r 3) (VStr "")));
         ("productUrl", DVal (js_or (cell sh r 4) (VStr "")));
         ("imageUrl", DVal (js_or (cell sh r 5) (VStr "")));
         ("claimed", DVal (VBool (isClaimed (cell sh r 6))));
         ("claimedBy", DVal (js_or (cell sh r 7) (VStr ""))) ].

(** The requests that [doPost] handles within the model: every body that
    does not parse, every body that parses to something else than an object
    with the action ['claim'], and the claim requests whose [rowIndex] is
    an integer and whose [claimedBy] is a scalar. *)
Definition modelled_request (e : Event) : bool :=
  match JSON_parse (contents (postData e)) with
  | inr (DObj fields) =>
      negb (is_claim (field fields "action")) ||
      match field fields "rowIndex", field fields "claimedBy" with
      | DVal (VNum _), DVal _ => true
      | _, _ => false
      end
  | _ => true
  end.

(** What [doPost] answers once [claimItem] has run: the result as a
    response, or the message of the error it threw. *)
Definition claim_response (r : Outcome Data * World) : Outcome TextOutput * World :=
  match r with
  | (Returns result, w) => (Returns (createJsonResponse result 200), w)
  | (Throws message, w) => (Returns (createJsonResponse (error_body message) 500), w)
  | (Unmodelled, w) => (Unmodelled, w)
  end.

(** ** The listing loop *)

Lemma blank_skipped (row : list Value) :
  is_blank (at_index row 0) = true -> skipped row = true.
Proof.
  unfold skipped. destruct (at_index row 0) as [| |b|n|s|t]; simpl; try discriminate.
  intros H. rewrite H. apply orb_true_r.
Qed.

Lemma for_rows_app (rest : list (list Value)) :
  forall i items, for_rows i rest items = (items ++ for_rows i rest [])%list.
Proof.
  induction rest as [|row rest IH]; intros i items; simpl.
  - by rewrite app_nil_r.
  - destruct (skipped row); [apply IH|].
    rewrite (IH (S i) (items ++ _)%list), (IH (S i) [make_item i row]).
    by rewrite <- app_assoc.
Qed.

Lemma elem_of_for_rows (rest : list (list Value)) :
  forall i it,
    it ∈ for_rows i rest [] <->
    exists k row, rest !! k = Some row /\ skipped row = false /\
                  it = make_item (i + k) row.
Proof.
  induction rest as [|row rest IH]; intros i it; simpl.
  - split; [intros H; inversion H | intros (k & r & H & _); discriminate].
  - destruct (skipped row) eqn:Hs.
    + rewrite IH. split.
      * intros (k & r & Hk & Hr & ->). exists (S k), r.
        split; [done|]. split; [done|]. f_equal. lia.
      * intros ([|k] & r & Hk & Hr & ->); simpl in Hk.
        -- congruence.
        -- exists k, r. split; [done|]. split; [done|]. f_equal. lia.
    + rewrite for_rows_app. simpl. rewrite elem_of_cons, IH. split.
      * intros [-> | (k & r & Hk & Hr & ->)].
        -- exists 0%nat, row. split; [done|]. split; [done|]. f_equal. lia.
        -- exists (S k), r. split; [done|]. split; [done|]. f_equal. lia.
      * intros ([|k] & r & Hk & Hr & ->); simpl in Hk.
        -- left. inversion Hk; subst. f_equal. lia.
        -- right. exists k, r. split; [done|]. split; [done|]. f_equal. lia.
Qed.

(** The listing holds exactly one item for each row of index at least 1 that
    is not skipped, and that item is numbered with the index of the row in
    [data]. *)
Lemma elem_of_registry_items (data : list (list Value)) (it : Data) :
  it ∈ registry_items data <->
  exists i row, (1 <= i)%nat /\ data !! i = Some row /\ skipped row = false /\
                it = make_item i row.
Proof.
  unfold registry_items. destruct (length data <? 2)%nat eqn:Hlen.
  - apply Nat.ltb_lt in Hlen. split; [intros H; inversion H|].
    intros (i & row & Hi & Hrow & _). apply lookup_lt_Some in Hrow. lia.
  - rewrite elem_of_for_rows. split.
    + intros (k & row & Hk & Hs & ->). rewrite lookup_drop in Hk.
      exists (1 + k)%nat, row. repeat split; [lia | done | done].
    + intros (i & row & Hi & Hrow & Hs & ->).
      exists (i - 1)%nat, row. rewrite lookup_drop.
      replace (1 + (i - 1))%nat with i by lia. done.
Qed.

Lemma item_id_make_item (i : nat) (row : list Value) :
  item_id (make_item i row) = DVal (VNum (Z.of_nat i)).
Proof. reflexivity. Qed.

(** ** The data range *)

(** Row [i] of the array read from the sheet is row [i + 1] of the sheet,
    and its slot [k] is column [k + 1]. *)
Lemma data_range_values_row (sh : Sheet) (i : nat) (row : list Value) :
  data_range_values sh !! i = Some row ->
  Z.of_nat i < Z.max 1 (last_row sh) /\
  row = (fun c => cell sh (Z.of_nat i + 1) c) <$> seqZ 1 (Z.max 1 (last_column sh)).
Proof.
  unfold data_range_values. rewrite list_lookup_fmap.
  destruct (seqZ 1 (Z.max 1 (last_row sh)) !! i) as [r|] eqn:Hr; [|discriminate].
  apply lookup_seqZ in Hr as [-> Hlt]. simpl. intros [= <-].
  split; [done|]. by replace (1 + Z.of_nat i) with (Z.of_nat i + 1) by lia.
Qed.

Lemma data_range_values_cell (sh : Sheet) (i k : nat) (row : list Value) (v : Value) :
  data_range_values sh !! i = Some row -> row !! k = Some v ->
  v = cell sh (Z.of_nat i + 1) (Z.of_nat k + 1).
Proof.
  intros Hrow Hv. apply data_range_values_row in Hrow as [_ ->].
  rewrite list_lookup_fmap in Hv.
  destruct (seqZ 1 (Z.max 1 (last_column sh)) !! k) as [c|] eqn:Hc; [|discriminate].
  apply lookup_seqZ in Hc as [-> _]. simpl in Hv. injection Hv as <-.
  by replace (1 + Z.of_nat k) with (Z.of_nat k + 1) by lia.
Qed.

Lemma data_range_values_first (sh : Sheet) (i : nat) (row : list Value) :
  data_range_values sh !! i = Some row ->
  at_index row 0 = cell sh (Z.of_nat i + 1) 1.
Proof.
  intros Hrow. unfold at_index.
  destruct (data_range_values_row _ _ _ Hrow) as [_ Heq].
  assert (Hk : row !! 0%nat = Some (cell sh (Z.of_nat i + 1) 1)).
  { rewrite Heq, list_lookup_fmap, lookup_seqZ_lt by lia. done. }
  by rewrite Hk.
Qed.

(** ** Running the handlers *)

Lemma the_sheet_insert (w : World) (name : string) (sh : Sheet) :
  the_sheet (mkWorld (<[name := sh]> (sheets w)) (clock w)) name = sh.
Proof. unfold the_sheet. simpl. by rewrite lookup_insert_eq. Qed.

Lemma run_getRegistryData (w : World) (sh : Sheet) :
  sheets w !! SHEET_NAME = Some sh ->
  getRegistryData w =
  (Returns (DObj [("items", DArr (registry_items (data_range_values sh)))]), w).
Proof.
  intros Hsh. unfold getRegistryData, bind, getSheetByName, getValues, ret, the_sheet.
  rewrite Hsh. cbv beta iota. by rewrite Hsh.
Qed.

Lemma run_getRegistryData_missing (w : World) :
  sheets w !! SHEET_NAME = None ->
  getRegistryData w = (Throws sheet_not_found, w).
Proof.
  intros Hsh. unfold getRegistryData, bind, getSheetByName, throw.
  by rewrite Hsh.
Qed.

(** The three ways a call of [claimItem] on an existing sheet ends. *)
Lemma run_claimItem (w : World) (sh : Sheet) (rowIndex : Z) (claimedBy : Value) :
  sheets w !! SHEET_NAME = Some sh ->
  claimItem rowIndex claimedBy w =
  if (rowIndex <? 2) || (rowIndex >? last_row sh) then
    (Throws "Invalid row index", w)
  else if isClaimed (cell sh rowIndex 6) then
    (Returns (claim_result false "Item already claimed"), w)
  else
    (Returns (claim_result true "Item claimed successfully"),
     mkWorld (<[SHEET_NAME := claimed_sheet sh rowIndex claimedBy (clock w)]> (sheets w))
             (clock w)).
Proof.
  intros Hsh.
  unfold claimItem, bind, getSheetByName, getLastRow, getValue, throw, ret.
  rewrite Hsh. cbv beta iota. unfold the_sheet at 1. rewrite Hsh.
  cbn [default from_option id].
  destruct ((rowIndex <? 2) || (rowIndex >? last_row sh)); [done|].
  unfold the_sheet at 1. rewrite Hsh. cbn [default from_option id].
  destruct (isClaimed (cell sh rowIndex 6)); [done|].
  unfold claimed_sheet, setValue, new_Date, the_sheet.
  destruct (truthy claimedBy); cbn [sheets clock fst snd];
    rewrite ?Hsh; cbn [default from_option id sheets clock];
    rewrite ?lookup_insert_eq; cbn [default from_option id];
    rewrite ?insert_insert_eq; done.
Qed.

Lemma run_claimItem_missing (w : World) (rowIndex : Z) (claimedBy : Value) :
  sheets w !! SHEET_NAME = None ->
  claimItem rowIndex claimedBy w = (Throws sheet_not_found, w).
Proof.
  intros Hsh. unfold claimItem, bind, getSheetByName, throw.
  by rewrite Hsh.
Qed.

(** Reading the sheet after a successful claim. *)
Lemma claimed_sheet_flag (sh : Sheet) (row : Z) (claimedBy : Value) (now : Z) :
  cell (claimed_sheet sh row claimedBy now) row 6 = VStr "TRUE".
Proof.
  unfold cell, claimed_sheet.
  destruct (truthy claimedBy);
    rewrite !lookup_insert_ne by (intros [=]); by rewrite lookup_insert_eq.
Qed.

Lemma claimed_sheet_claimant (sh : Sheet) (row : Z) (claimedBy : Value) (now : Z) :
  claimed_sheet sh row claimedBy now !! (row, 7) =
  if truthy claimedBy then Some claimedBy else sh !! (row, 7).
Proof.
  unfold claimed_sheet.
  destruct (truthy claimedBy).
  - rewrite lookup_insert_ne by (intros [=]). by rewrite lookup_insert_eq.
  - by rewrite !lookup_insert_ne by (intros [=]).
Qed.

Lemma claimed_sheet_timestamp (sh : Sheet) (row : Z) (claimedBy : Value) (now : Z) :
  cell (claimed_sheet sh row claimedBy now) row 8 = VDate now.
Proof. unfold cell, claimed_sheet. by rewrite lookup_insert_eq. Qed.

Lemma claimed_sheet_frame (sh : Sheet) (row : Z) (claimedBy : Value) (now : Z)
      (r c : Z) :
  (r, c) <> (row, 6) -> (r, c) <> (row, 7) -> (r, c) <> (row, 8) ->
  claimed_sheet sh row claimedBy now !! (r, c) = sh !! (r, c).
Proof.
  intros H6 H7 H8. unfold claimed_sheet.
  destruct (truthy claimedBy); by rewrite !lookup_insert_ne by done.
Qed.

Lemma is_claim_false (action : Data) :
  action <> DVal (VStr "claim") -> is_claim action = false.
Proof.
  intros Hne. destruct action as [[| | | |s|]| |]; simpl; try done.
  destruct (String.eqb s "claim") eqn:Heq; [|done].
  apply String.eqb_eq in Heq. by subst.
Qed.

Lemma is_claim_true (action : Data) :
  is_claim action = true -> action = DVal (VStr "claim").
Proof.
  destruct action as [[| | | |s|]| |]; simpl; try discriminate.
  intros Heq. apply String.eqb_eq in Heq. by subst.
Qed.

(** With a body that parses and an action that is not ['claim'], [doPost]
    answers without reaching the store. *)
Lemma run_doPost_invalid_action (e : Event) (w : World) (params action : Data) :
  JSON_parse (contents (postData e)) = inr params ->
  get_property params "action" w = (Returns action, w) ->
  action <> DVal (VStr "claim") ->
  doPost e w = (Returns (createJsonResponse (error_body "Invalid action") 400), w).
Proof.
  intros Hparse Haction Hne.
  unfold doPost, try_catch, bind. rewrite Hparse. unfold ret at 1.
  rewrite Haction, (is_claim_false _ Hne). done.
Qed.

(** A body that does not parse is answered with the message of the parse
    error, and the store is not reached. *)
Lemma run_doPost_malformed (e : Event) (w : World) (message : string) :
  JSON_parse (contents (postData e)) = inl message ->
  doPost e w = (Returns (createJsonResponse (error_body message) 500), w).
Proof.
  intros Hparse. unfold doPost, try_catch, bind. by rewrite Hparse.
Qed.

(** ** Properties of the listing *)

(** C1 (the code departs from it): the listing numbers an item with the
    index of its row in the array read from the sheet, which starts at 0 for
    the header.  The item numbered [i] is made of the cells of sheet row
    [i + 1]: its [id] is one less than the row number of the row it shows,
    and the first data row, row 2 of the sheet, is listed with [id] 1. *)
Theorem C1_listed_id_is_one_below_the_row_number
        (w : World) (sh : Sheet) (items : list Data) (it : Data) :
  sheets w !! SHEET_NAME = Some sh ->
  getRegistryData w = (Returns (DObj [("items", DArr items)]), w) ->
  it ∈ items ->
  exists (i : nat) (row : list Value),
    (1 <= i)%nat /\
    it = make_item i row /\
    item_id it = DVal (VNum (Z.of_nat i)) /\
    data_range_values sh !! i = Some row /\
    (forall (k : nat) (v : Value),
        row !! k = Some v -> v = cell sh (Z.of_nat i + 1) (Z.of_nat k + 1)).
Proof.
  intros Hsh Hrun Hin. rewrite (run_getRegistryData _ _ Hsh) in Hrun.
  injection Hrun as <-.
  apply elem_of_registry_items in Hin as (i & row & Hi & Hrow & _ & ->).
  exists i, row. repeat split; try done.
  intros k v Hv. by eapply data_range_values_cell.
Qed.

(** C8: the listing leaves out every data row whose first column is empty or
    only white space, whatever its other columns hold: no listed item comes
    from the position of such a row.  On a table of fewer than 2 rows the
    result is [{ items: [] }]. *)
Theorem C8_listing_skips_blank_rows (w : World) (sh : Sheet) :
  sheets w !! SHEET_NAME = Some sh ->
  exists items : list Data,
    getRegistryData w = (Returns (DObj [("items", DArr items)]), w) /\
    (forall (i : nat) (row : list Value),
        data_range_values sh !! i = Some row ->
        is_blank (at_index row 0) = true ->
        forall it, it ∈ items -> item_id it <> DVal (VNum (Z.of_nat i))) /\
    ((length (data_range_values sh) < 2)%nat -> items = []).
Proof.
  intros Hsh. exists (registry_items (data_range_values sh)).
  split; [by apply run_getRegistryData|]. split.
  - intros i row Hrow Hblank it Hin.
    apply elem_of_registry_items in Hin as (j & row' & _ & Hrow' & Hs & ->).
    rewrite item_id_make_item. intros [= Hij]. apply Nat2Z.inj in Hij. subst j.
    rewrite Hrow in Hrow'. injection Hrow' as <-.
    apply blank_skipped in Hblank. congruence.
  - intros Hlen. unfold registry_items.
    apply Nat.ltb_lt in Hlen. by rewrite Hlen.
Qed.

(** ** Properties of the claim flag *)

(** C3: [isClaimed] holds exactly of the values that are not falsy and whose
    text, in lower case and trimmed, is one of "true", "yes", "claimed" and
    "x".  It holds of "TRUE", "True", "yes", "Claimed", "x" and "X", and
    fails of "", null, "no", "false" and "maybe". *)
Theorem C3_isClaimed_normalization :
  (forall v : Value, isClaimed v = true <-> normalizes_to_claimed v) /\
  Forall (fun v => isClaimed v = true)
         [VStr "TRUE"; VStr "True"; VStr "yes"; VStr "Claimed"; VStr "x"; VStr "X"] /\
  Forall (fun v => isClaimed v = false)
         [VStr ""; VNull; VStr "no"; VStr "false"; VStr "maybe"].
Proof.
  split.
  - intros v. unfold isClaimed, normalizes_to_claimed.
    destruct (truthy v); simpl.
    + rewrite !orb_true_iff, !String.eqb_eq. split.
      * intros H. split; [done|]. intuition (subst; auto).
      * intros [_ H]. intuition (subst; auto).
    + split; [discriminate | intros [? _]; discriminate].
  - split; repeat constructor.
Qed.

(** ** Properties of the claim operation *)

Lemma in_range (rowIndex lastRow : Z) :
  2 <= rowIndex <= lastRow -> (rowIndex <? 2) || (rowIndex >? lastRow) = false.
Proof. intros H. apply orb_false_iff. split; lia. Qed.

Lemma out_of_range (rowIndex lastRow : Z) :
  rowIndex < 2 \/ rowIndex > lastRow ->
  (rowIndex <? 2) || (rowIndex >? lastRow) = true.
Proof. intros H. apply orb_true_iff. lia. Qed.

(** C2: on a row of the valid range whose flag cell already reads as
    claimed, [claimItem] returns [{ success: false, message: "Item already
    claimed" }] without throwing, and the store after the call is the store
    before it: the flag, the claimant and the timestamp of the row are what
    they were. *)
Theorem C2_already_claimed_is_rejected
        (w : World) (sh : Sheet) (rowIndex : Z) (claimedBy : Value) :
  sheets w !! SHEET_NAME = Some sh ->
  2 <= rowIndex <= last_row sh ->
  isClaimed (cell sh rowIndex 6) = true ->
  exists w' : World,
    claimItem rowIndex claimedBy w =
      (Returns (claim_result false "Item already claimed"), w') /\
    w' = w /\
    (forall column : Z,
        cell (the_sheet w' SHEET_NAME) rowIndex column = cell sh rowIndex column).
Proof.
  intros Hsh Hrange Hclaimed. exists w.
  rewrite (run_claimItem _ _ _ _ Hsh), (in_range _ _ Hrange), Hclaimed.
  repeat split. intros column. unfold the_sheet. by rewrite Hsh.
Qed.

(** Whatever row a call addresses and however it ends, a flag that read as
    claimed before the call reads as claimed after it. *)
Lemma claimed_is_monotonic
      (w : World) (sh : Sheet) (rowIndex : Z) (claimedBy : Value) (row : Z) :
  sheets w !! SHEET_NAME = Some sh ->
  isClaimed (cell sh row 6) = true ->
  isClaimed (cell (the_sheet (snd (claimItem rowIndex claimedBy w)) SHEET_NAME) row 6)
  = true.
Proof.
  intros Hsh Hclaimed. rewrite (run_claimItem _ _ _ _ Hsh).
  destruct ((rowIndex <? 2) || (rowIndex >? last_row sh));
    [simpl; unfold the_sheet; by rewrite Hsh|].
  destruct (isClaimed (cell sh rowIndex 6)) eqn:Hflag;
    [simpl; unfold the_sheet; by rewrite Hsh|].
  destruct (decide (row = rowIndex)) as [->|Hne]; [congruence|].
  cbn [snd]. rewrite the_sheet_insert. unfold cell at 1.
  rewrite claimed_sheet_frame by congruence. exact Hclaimed.
Qed.

(** C4: on a row between 2 and the last occupied row whose flag cell does
    not read as claimed, [claimItem] writes a flag that reads as claimed,
    writes [claimedBy] to the claimant cell when it is not empty, writes the
    time of the clock to the timestamp cell, and returns [{ success: true,
    message: "Item claimed successfully" }].  No other cell of the sheet
    changes. *)
Theorem C4_claim_of_unclaimed_row
        (w : World) (sh : Sheet) (rowIndex : Z) (claimedBy : Value) :
  sheets w !! SHEET_NAME = Some sh ->
  2 <= rowIndex <= last_row sh ->
  isClaimed (cell sh rowIndex 6) = false ->
  exists (w' : World) (sh' : Sheet),
    claimItem rowIndex claimedBy w =
      (Returns (claim_result true "Item claimed successfully"), w') /\
    sheets w' !! SHEET_NAME = Some sh' /\
    isClaimed (cell sh' rowIndex 6) = true /\
    (truthy claimedBy = true -> cell sh' rowIndex 7 = claimedBy) /\
    cell sh' rowIndex 8 = VDate (clock w) /\
    (forall row column : Z,
        (row, column) <> (rowIndex, 6) -> (row, column) <> (rowIndex, 7) ->
        (row, column) <> (rowIndex, 8) ->
        cell sh' row column = cell sh row column).
Proof.
  intros Hsh Hrange Hfree.
  eexists _, (claimed_sheet sh rowIndex claimedBy (clock w)).
  rewrite (run_claimItem _ _ _ _ Hsh), (in_range _ _ Hrange), Hfree.
  split; [reflexivity|]. split; [simpl; by rewrite lookup_insert_eq|].
  split; [by rewrite claimed_sheet_flag|].
  split; [|split].
  - intros Ht. unfold cell. by rewrite claimed_sheet_claimant, Ht.
  - apply claimed_sheet_timestamp.
  - intros row column H6 H7 H8. unfold cell.
    by rewrite claimed_sheet_frame.
Qed.

(** C5: for a row index below 2 or above the last occupied row, [claimItem]
    throws the error "Invalid row index" instead of returning a result, and
    the store is left as it was. *)
Theorem C5_row_index_out_of_range
        (w : World) (sh : Sheet) (rowIndex : Z) (claimedBy : Value) :
  sheets w !! SHEET_NAME = Some sh ->
  rowIndex < 2 \/ rowIndex > last_row sh ->
  claimItem rowIndex claimedBy w = (Throws "Invalid row index", w).
Proof.
  intros Hsh Hout.
  by rewrite (run_claimItem _ _ _ _ Hsh), (out_of_range _ _ Hout).
Qed.

(** C7, as amended: a row whose first column is empty or blank is left out
    of the listing, but [claimItem] never reads the first column.  A claim
    addressed to such a row, with an index between 2 and the last occupied
    row, succeeds when the flag cell of the row does not read as claimed,
    and is rejected as already claimed when it does. *)
Theorem C7_blank_row_is_claimable
        (w : World) (sh : Sheet) (rowIndex : Z) (claimedBy : Value) :
  sheets w !! SHEET_NAME = Some sh ->
  is_blank (cell sh rowIndex 1) = true ->
  2 <= rowIndex <= last_row sh ->
  (forall (it : Data) (row : list Value),
      it ∈ registry_items (data_range_values sh) ->
      it <> make_item (Z.to_nat (rowIndex - 1)) row) /\
  fst (claimItem rowIndex claimedBy w) =
  if isClaimed (cell sh rowIndex 6)
  then Returns (claim_result false "Item already claimed")
  else Returns (claim_result true "Item claimed successfully").
Proof.
  intros Hsh Hblank Hrange. split.
  - intros it row Hin ->.
    apply elem_of_registry_items in Hin as (j & row' & _ & Hrow' & Hs & Heq).
    assert (Hj : j = Z.to_nat (rowIndex - 1)).
    { apply (f_equal item_id) in Heq. rewrite !item_id_make_item in Heq.
      injection Heq as Heq. apply Nat2Z.inj in Heq. congruence. }
    subst j. apply data_range_values_first in Hrow'.
    replace (Z.of_nat (Z.to_nat (rowIndex - 1)) + 1) with rowIndex in Hrow' by lia.
    rewrite <- Hrow' in Hblank. apply blank_skipped in Hblank. congruence.
  - rewrite (run_claimItem _ _ _ _ Hsh), (in_range _ _ Hrange).
    by destruct (isClaimed (cell sh rowIndex 6)).
Qed.

(** C9: a claim of a valid unclaimed row with no [claimedBy], or an empty
    one, succeeds and leaves the claimant cell of the row as it was. *)
Theorem C9_claim_without_claimant
        (w : World) (sh : Sheet) (rowIndex : Z) (claimedBy : Value) :
  sheets w !! SHEET_NAME = Some sh ->
  2 <= rowIndex <= last_row sh ->
  isClaimed (cell sh rowIndex 6) = false ->
  claimedBy = VUndefined \/ claimedBy = VStr "" ->
  exists (w' : World) (sh' : Sheet),
    claimItem rowIndex claimedBy w =
      (Returns (claim_result true "Item claimed successfully"), w') /\
    sheets w' !! SHEET_NAME = Some sh' /\
    sh' !! (rowIndex, 7) = sh !! (rowIndex, 7) /\
    cell sh' rowIndex 7 = cell sh rowIndex 7.
Proof.
  intros Hsh Hrange Hfree Hempty.
  assert (Hfalsy : truthy claimedBy = false) by (by destruct Hempty as [-> | ->]).
  eexists _, (claimed_sheet sh rowIndex claimedBy (clock w)).
  rewrite (run_claimItem _ _ _ _ Hsh), (in_range _ _ Hrange), Hfree.
  split; [reflexivity|]. split; [simpl; by rewrite lookup_insert_eq|].
  unfold cell. by rewrite claimed_sheet_claimant, Hfalsy.
Qed.

(** ** Properties of the responses *)

(** C10: the status code given to [createJsonResponse] has no effect on the
    response it builds: with the same payload, any two status codes give the
    same output. *)
Theorem C10_status_code_is_ignored (data : Data) (status1 status2 : Z) :
  createJsonResponse data status1 = createJsonResponse data status2.
Proof. reflexivity. Qed.

(** C6 (the code departs from it): when the body of a write request parses
    and its [action] is not "claim", [doPost] returns the body
    [{ error: "Invalid action" }] as JSON text with the JSON content type,
    and the store is left as it was; but the response carries no
    client-error status.  [doPost] passes 400 to [createJsonResponse], which
    drops it: the response is the one built with any other status, so no
    status can be read off it. *)
Theorem C6_invalid_action_response
        (e : Event) (w : World) (params action : Data) :
  JSON_parse (contents (postData e)) = inr params ->
  get_property params "action" w = (Returns action, w) ->
  action <> DVal (VStr "claim") ->
  exists out : TextOutput,
    doPost e w = (Returns out, w) /\
    content out = JSON_stringify (error_body "Invalid action") /\
    mimeType out = JSON /\
    (forall status : Z,
        out = createJsonResponse (error_body "Invalid action") status) /\
    (forall status : Z, ~ carries_status out status).
Proof.
  intros Hparse Haction Hne. eexists. split.
  - by eapply run_doPost_invalid_action.
  - repeat split. intros status Hcarries.
    specialize (Hcarries (error_body "Invalid action") (status + 1) eq_refl). lia.
Qed.

(** ** Letter case and white space *)

Lemma lower_char_space (c : ascii) : is_space (lower_char c) = is_space c.
Proof. destruct c as [[] [] [] [] [] [] [] []]; vm_compute; reflexivity. Qed.

Lemma numeral_lower_char (c : ascii) : is_numeral c = true -> lower_char c = c.
Proof. destruct c as [[] [] [] [] [] [] [] []]; vm_compute; congruence. Qed.

Lemma numeral_not_space (c : ascii) : is_numeral c = true -> is_space c = false.
Proof. destruct c as [[] [] [] [] [] [] [] []]; vm_compute; congruence. Qed.

Lemma numeral_not_marker (c : ascii) (r : string) :
  is_numeral c = true -> is_marker (String c r) = false.
Proof.
  destruct c as [[] [] [] [] [] [] [] []]; vm_compute; congruence.
Qed.

Lemma toLowerCase_app (s t : string) :
  toLowerCase (s +:+ t) = toLowerCase s +:+ toLowerCase t.
Proof. induction s as [|c s IH]; simpl; [done | by rewrite IH]. Qed.

Lemma all_space_toLowerCase (s : string) :
  all_chars is_space (toLowerCase s) = all_chars is_space s.
Proof.
  induction s as [|c s IH]; simpl; [done|]. by rewrite lower_char_space, IH.
Qed.

Lemma trimStart_all_space (s : string) :
  all_chars is_space s = true -> trimStart s = "".
Proof.
  induction s as [|c s IH]; simpl; [done|].
  destruct (is_space c); simpl; [exact IH | discriminate].
Qed.

Lemma trimEnd_all_space (s : string) :
  all_chars is_space s = true -> trimEnd s = "".
Proof.
  induction s as [|c s IH]; simpl; [done|].
  destruct (is_space c); simpl; [|discriminate].
  intros H. by rewrite (IH H).
Qed.

Lemma trimStart_app (s t : string) :
  trimStart (s +:+ t) =
  if all_chars is_space s then trimStart t else trimStart s +:+ t.
Proof.
  induction s as [|c s IH]; simpl; [done|].
  destruct (is_space c); simpl; [exact IH | done].
Qed.

Lemma trimEnd_app_space (s t : string) :
  all_chars is_space t = true -> trimEnd (s +:+ t) = trimEnd s.
Proof.
  intros Ht. induction s as [|c s IH]; simpl.
  - by apply trimEnd_all_space.
  - by rewrite IH.
Qed.

(** White space around a text does not survive [trim]. *)
Lemma trim_padding (pre s post : string) :
  all_chars is_space pre = true -> all_chars is_space post = true ->
  trim (pre +:+ s +:+ post) = trim s.
Proof.
  intros Hpre Hpost. unfold trim.
  rewrite trimStart_app, Hpre, trimStart_app.
  destruct (all_chars is_space s) eqn:Hs.
  - by rewrite (trimStart_all_space _ Hpost), (trimStart_all_space _ Hs).
  - by apply trimEnd_app_space.
Qed.

Lemma trimEnd_no_space (s : string) :
  all_chars (fun c => negb (is_space c)) s = true -> trimEnd s = s.
Proof.
  induction s as [|c s IH]; simpl; [done|].
  intros [Hc Hs]%andb_true_iff. rewrite (IH Hs).
  destruct s; [|done]. by destruct (is_space c).
Qed.

(** The decimal text of an integer is left alone by [toLowerCase] and by
    [trim]. *)
Lemma numeral_text_normal (s : string) :
  all_chars is_numeral s = true -> trim (toLowerCase s) = s.
Proof.
  intros Hs.
  assert (Hlow : toLowerCase s = s).
  { induction s as [|c s IH]; simpl in *; [done|].
    apply andb_true_iff in Hs as [Hc Hs].
    by rewrite (numeral_lower_char _ Hc), (IH Hs). }
  assert (Hno : all_chars (fun c => negb (is_space c)) s = true).
  { clear Hlow. induction s as [|c s IH]; simpl in *; [done|].
    apply andb_true_iff in Hs as [Hc Hs].
    by rewrite (numeral_not_space _ Hc), (IH Hs). }
  rewrite Hlow. unfold trim.
  destruct s as [|c s]; [done|]. simpl in Hs. simpl trimStart.
  apply andb_true_iff in Hs as [Hc _].
  rewrite (numeral_not_space _ Hc). by apply trimEnd_no_space.
Qed.

Lemma string_of_uint_numeral (d : Decimal.uint) :
  all_chars is_numeral (NilEmpty.string_of_uint d) = true.
Proof. induction d; simpl; done. Qed.

Lemma Number_toString_numeral (n : Z) :
  all_chars is_numeral (Number_toString n) = true.
Proof.
  unfold Number_toString, NilZero.string_of_int, NilZero.string_of_uint.
  destruct (Z.to_int n) as [d|d]; destruct d; simpl;
    try done; apply string_of_uint_numeral.
Qed.

(** On a string, the falsiness test of [isClaimed] is subsumed by the
    comparison with the markers. *)
Lemma isClaimed_VStr (s : string) :
  isClaimed (VStr s) = is_marker (trim (toLowerCase s)).
Proof. destruct s; reflexivity. Qed.

(** X1: [isClaimed] judges alike two strings that differ only in the case of
    their letters and in white space before and after them. *)
Theorem X1_isClaimed_ignores_case_and_padding (pre s1 s2 post : string) :
  all_chars is_space pre = true ->
  all_chars is_space post = true ->
  toLowerCase s1 = toLowerCase s2 ->
  isClaimed (VStr (pre +:+ s1 +:+ post)) = isClaimed (VStr s2).
Proof.
  intros Hpre Hpost Hcase. rewrite !isClaimed_VStr, !toLowerCase_app.
  rewrite trim_padding by (by rewrite all_space_toLowerCase).
  by rewrite Hcase.
Qed.

(** X2: a boolean cell reads as claimed exactly when it is [true], and a
    numeric cell never reads as claimed, whatever the number. *)
Theorem X2_isClaimed_of_booleans_and_numbers (b : bool) (n : Z) :
  isClaimed (VBool b) = b /\ isClaimed (VNum n) = false.
Proof.
  split; [by destruct b|].
  unfold isClaimed. cbn [truthy toString].
  destruct (n =? 0); [done|]. cbn [negb].
  rewrite (numeral_text_normal _ (Number_toString_numeral n)).
  pose proof (Number_toString_numeral n) as Hn.
  destruct (Number_toString n) as [|c r]; [done|].
  simpl in Hn. apply andb_true_iff in Hn as [Hc _].
  exact (numeral_not_marker c r Hc).
Qed.

(** ** The last row and the last column *)

Lemma last_row_ge (sh : Sheet) (r c : Z) (v : Value) :
  sh !! (r, c) = Some v -> is_empty_cell v = false -> r <= last_row sh.
Proof.
  intros Hv Hne. apply elem_of_map_to_list in Hv. unfold last_row.
  induction (map_to_list sh) as [|[[r' c'] v'] l IH]; [inversion Hv|].
  apply elem_of_cons in Hv as [[= <- <- <-] | Hin]; simpl.
  - rewrite Hne. lia.
  - specialize (IH Hin). destruct (is_empty_cell v'); lia.
Qed.

Lemma last_column_ge (sh : Sheet) (r c : Z) (v : Value) :
  sh !! (r, c) = Some v -> is_empty_cell v = false -> c <= last_column sh.
Proof.
  intros Hv Hne. apply elem_of_map_to_list in Hv. unfold last_column.
  induction (map_to_list sh) as [|[[r' c'] v'] l IH]; [inversion Hv|].
  apply elem_of_cons in Hv as [[= <- <- <-] | Hin]; simpl.
  - rewrite Hne. lia.
  - specialize (IH Hin). destruct (is_empty_cell v'); lia.
Qed.

(** The last row is 0 or the row of a cell with content. *)
Lemma last_row_attained (sh : Sheet) :
  last_row sh = 0 \/
  exists c v, sh !! (last_row sh, c) = Some v /\ is_empty_cell v = false.
Proof.
  unfold last_row.
  assert (H : forall rc v, (rc, v) ∈ map_to_list sh -> sh !! rc = Some v)
    by (intros rc v; apply elem_of_map_to_list).
  induction (map_to_list sh) as [|[[r' c'] v'] l IH]; simpl; [by left|].
  destruct (is_empty_cell v') eqn:Hv'.
  - apply IH. intros rc v Hin. apply H. by right.
  - destruct (Z.max_spec r' (foldr (fun '(rc, v) acc =>
        if is_empty_cell v then acc else Z.max rc.1 acc) 0 l)) as [[_ ->] | [_ ->]].
    + apply IH. intros rc v Hin. apply H. by right.
    + right. exists c', v'. split; [apply H; by left | done].
Qed.

(** A cell with content, read through [cell]. *)
Lemma cell_content (sh : Sheet) (r c : Z) :
  is_empty_cell (cell sh r c) = false ->
  exists v, sh !! (r, c) = Some v /\ is_empty_cell v = false.
Proof.
  unfold cell. destruct (sh !! (r, c)) as [v|]; simpl; [|discriminate].
  intros H. by exists v.
Qed.

(** A cell past the last column is empty. *)
Lemma cell_past_last_column (sh : Sheet) (r c : Z) :
  last_column sh < c -> cell sh r c = VStr "".
Proof.
  intros Hc. destruct (is_empty_cell (cell sh r c)) eqn:He.
  - destruct (cell sh r c) as [| | | |s|]; try discriminate.
    simpl in He. apply String.eqb_eq in He. by subst.
  - apply cell_content in He as (v & Hv & Hne).
    apply last_column_ge in Hv; [lia | done].
Qed.

(** ** The listing, cell by cell *)

Lemma data_range_values_lookup (sh : Sheet) (i : nat) :
  Z.of_nat i < Z.max 1 (last_row sh) ->
  data_range_values sh !! i =
  Some ((fun c => cell sh (Z.of_nat i + 1) c) <$> seqZ 1 (Z.max 1 (last_column sh))).
Proof.
  intros Hi. unfold data_range_values.
  rewrite list_lookup_fmap, lookup_seqZ_lt by lia. simpl.
  by replace (1 + Z.of_nat i) with (Z.of_nat i + 1) by lia.
Qed.

(** Slot [k] of a row of the data range, when it is read through an
    operation that does not tell [undefined] from the empty string, is column
    [k + 1] of the sheet, however wide the data range is. *)
Lemma at_index_cell {A} (f : Value -> A) (sh : Sheet) (r : Z) (k : nat) :
  f VUndefined = f (VStr "") ->
  f (at_index ((fun c => cell sh r c) <$> seqZ 1 (Z.max 1 (last_column sh))) k) =
  f (cell sh r (Z.of_nat k + 1)).
Proof.
  intros Hf. unfold at_index. rewrite list_lookup_fmap.
  destruct (decide (Z.of_nat k < Z.max 1 (last_column sh))) as [Hk|Hk].
  - rewrite lookup_seqZ_lt by done. simpl.
    by replace (1 + Z.of_nat k) with (Z.of_nat k + 1) by lia.
  - rewrite lookup_seqZ_ge by lia. simpl.
    rewrite cell_past_last_column by lia. done.
Qed.

Lemma skipped_has_name (row : list Value) :
  skipped row = negb (has_name (at_index row 0)).
Proof.
  unfold skipped, has_name. by rewrite negb_andb, negb_involutive.
Qed.

(** The item that the loop makes of row [i] of the data range is the item
    of sheet row [i + 1]. *)
Lemma make_item_row_item (sh : Sheet) (i : nat) :
  make_item i ((fun c => cell sh (Z.of_nat i + 1) c)
                 <$> seqZ 1 (Z.max 1 (last_column sh))) =
  row_item sh (Z.of_nat i + 1).
Proof.
  unfold make_item, row_item.
  rewrite (at_index_cell (fun v => js_or v (VStr "")) sh _ 0) by done.
  rewrite (at_index_cell (fun v => js_or v (VStr "")) sh _ 1) by done.
  rewrite (at_index_cell (fun v => js_or v (VStr "")) sh _ 2) by done.
  rewrite (at_index_cell (fun v => js_or v (VStr "")) sh _ 3) by done.
  rewrite (at_index_cell (fun v => js_or v (VStr "")) sh _ 4) by done.
  rewrite (at_index_cell isClaimed sh _ 5) by done.
  rewrite (at_index_cell (fun v => js_or v (VStr "")) sh _ 6) by done.
  simpl Z.of_nat. simpl Z.add.
  by replace (Z.of_nat i + 1 - 1) with (Z.of_nat i) by lia.
Qed.

(** The listing holds exactly the items of the sheet rows from 2 to the
    last row whose first cell has a name. *)
Lemma elem_of_listing (sh : Sheet) (it : Data) :
  it ∈ registry_items (data_range_values sh) <->
  exists r : Z, 2 <= r <= last_row sh /\ has_name (cell sh r 1) = true /\
                it = row_item sh r.
Proof.
  rewrite elem_of_registry_items. split.
  - intros (i & row & Hi & Hrow & Hs & ->).
    pose proof (data_range_values_first _ _ _ Hrow) as Hfirst.
    apply data_range_values_row in Hrow as [Hlt ->].
    exists (Z.of_nat i + 1). split; [lia|]. split.
    + rewrite skipped_has_name, Hfirst in Hs. by apply negb_false_iff in Hs.
    + apply make_item_row_item.
  - intros (r & Hr & Hname & ->).
    assert (Hlt : Z.of_nat (Z.to_nat (r - 1)) < Z.max 1 (last_row sh)) by lia.
    pose proof (data_range_values_lookup sh _ Hlt) as Hrow.
    replace (Z.of_nat (Z.to_nat (r - 1)) + 1) with r in Hrow by lia.
    exists (Z.to_nat (r - 1)), ((fun c => cell sh r c) <$> seqZ 1 (Z.max 1 (last_column sh))).
    split; [lia|]. split; [done|]. split.
    + rewrite skipped_has_name.
      pose proof (data_range_values_first _ _ _ Hrow) as Hfirst.
      replace (Z.of_nat (Z.to_nat (r - 1)) + 1) with r in Hfirst by lia.
      by rewrite Hfirst, Hname.
    + pose proof (make_item_row_item sh (Z.to_nat (r - 1))) as Heq.
      replace (Z.of_nat (Z.to_nat (r - 1)) + 1) with r in Heq by lia.
      by rewrite Heq.
Qed.

(** X3: every row of the sheet from row 2 to the last row with content
    whose first cell is neither falsy nor blank is listed, and its item
    carries the row number less one as [id]. *)
Theorem X3_named_rows_are_listed (w : World) (sh : Sheet) (r : Z) :
  sheets w !! SHEET_NAME = Some sh ->
  2 <= r <= last_row sh ->
  truthy (cell sh r 1) = true ->
  trim (toString (cell sh r 1)) <> "" ->
  exists (items : list Data) (it : Data),
    getRegistryData w = (Returns (DObj [("items", DArr items)]), w) /\
    it ∈ items /\
    item_id it = DVal (VNum (r - 1)) /\
    item_field it "productName" = DVal (cell sh r 1).
Proof.
  intros Hsh Hr Ht Hname.
  exists (registry_items (data_range_values sh)), (row_item sh r).
  split; [by apply run_getRegistryData|]. split.
  - apply elem_of_listing. exists r. split; [done|]. split; [|done].
    unfold has_name. rewrite Ht. simpl.
    apply negb_true_iff. by apply String.eqb_neq.
  - split; [done|]. unfold row_item, item_field, field, js_or. simpl.
    by rewrite Ht.
Qed.

(** X4: the fields of a listed item are the cells of one sheet row between
    2 and the last row: columns A to E and G with the empty string for a
    falsy cell, and the claim flag of column F, also when the data range is
    narrower than seven columns. *)
Theorem X4_listed_item_shows_its_row
        (w : World) (sh : Sheet) (items : list Data) (it : Data) :
  sheets w !! SHEET_NAME = Some sh ->
  getRegistryData w = (Returns (DObj [("items", DArr items)]), w) ->
  it ∈ items ->
  exists r : Z,
    2 <= r <= last_row sh /\
    it = DObj [ ("id", DVal (VNum (r - 1)));
                ("productName", DVal (cell sh r 1));
                ("manufacturer", DVal (js_or (cell sh r 2) (VStr "")));
                ("price", DVal (js_or (cell sh r 3) (VStr "")));
                ("productUrl", DVal (js_or (cell sh r 4) (VStr "")));
                ("imageUrl", DVal (js_or (cell sh r 5) (VStr "")));
                ("claimed", DVal (VBool (isClaimed (cell sh r 6))));
                ("claimedBy", DVal (js_or (cell sh r 7) (VStr ""))) ].
Proof.
  intros Hsh Hrun Hin. rewrite (run_getRegistryData _ _ Hsh) in Hrun.
  injection Hrun as <-.
  apply elem_of_listing in Hin as (r & Hr & Hname & ->). exists r. split; [done|].
  unfold row_item, js_or at 1.
  apply andb_true_iff in Hname as [Ht _]. by rewrite Ht.
Qed.

(** The ids of the items made by the loop entered at index [i] lie from [i]
    up to the last index visited. *)
Lemma for_rows_id_bounds (rest : list (list Value)) (i : nat) (it : Data) :
  it ∈ for_rows i rest [] ->
  exists j : nat, (i <= j < i + length rest)%nat /\
                  item_id it = DVal (VNum (Z.of_nat j)).
Proof.
  intros (k & row & Hk & _ & ->)%elem_of_for_rows.
  apply lookup_lt_Some in Hk. exists (i + k)%nat. split; [lia | done].
Qed.

Lemma for_rows_ids_increase (rest : list (list Value)) :
  forall (i a b : nat) (ia ib : Data),
    for_rows i rest [] !! a = Some ia ->
    for_rows i rest [] !! b = Some ib ->
    (a < b)%nat ->
    exists p q : nat,
      (i <= p < q)%nat /\ (q < i + length rest)%nat /\
      item_id ia = DVal (VNum (Z.of_nat p)) /\
      item_id ib = DVal (VNum (Z.of_nat q)).
Proof.
  induction rest as [|row rest IH]; intros i a b ia ib Ha Hb Hab; simpl in *.
  - discriminate.
  - destruct (skipped row).
    + destruct (IH _ _ _ _ _ Ha Hb Hab) as (p & q & Hp & Hq & Hia & Hib).
      exists p, q. repeat split; try done; lia.
    + rewrite for_rows_app in Ha, Hb. simpl in Ha, Hb.
      destruct b as [|b]; [lia|]. simpl in Hb.
      destruct a as [|a]; simpl in Ha.
      * injection Ha as <-.
        apply list_elem_of_lookup_2 in Hb.
        apply for_rows_id_bounds in Hb as (q & Hq & Hib).
        exists i, q. repeat split; try done; lia.
      * destruct (IH _ _ _ _ _ Ha Hb ltac:(lia)) as (p & q & Hp & Hq & Hia & Hib).
        exists p, q. repeat split; try done; lia.
Qed.

(** X5: every id of the listing is at least 1 and below the number of rows
    read from the sheet, and the ids grow strictly from one item to the
    next, so no two items share an id. *)
Theorem X5_listing_ids_increase (data : list (list Value)) :
  (forall (a : nat) (ia : Data),
      registry_items data !! a = Some ia ->
      exists p : nat,
        item_id ia = DVal (VNum (Z.of_nat p)) /\
        (1 <= p < length data)%nat) /\
  (forall (a b : nat) (ia ib : Data),
      registry_items data !! a = Some ia ->
      registry_items data !! b = Some ib ->
      (a < b)%nat ->
      exists p q : nat,
        item_id ia = DVal (VNum (Z.of_nat p)) /\
        item_id ib = DVal (VNum (Z.of_nat q)) /\
        (1 <= p < q)%nat /\ (q < length data)%nat).
Proof.
  split.
  - intros a ia Ha. apply list_elem_of_lookup_2 in Ha.
    apply elem_of_registry_items in Ha as (i & row & Hi & Hrow & _ & ->).
    apply lookup_lt_Some in Hrow. exists i. split; [done | lia].
  - unfold registry_items.
    destruct (length data <? 2)%nat eqn:Hlen; [discriminate|].
    intros a b ia ib Ha Hb Hab. apply Nat.ltb_ge in Hlen.
    destruct (for_rows_ids_increase _ _ _ _ _ _ Ha Hb Hab)
      as (p & q & Hp & Hq & Hia & Hib).
    rewrite length_drop in Hq.
    exists p, q. repeat split; try done; lia.
Qed.

(** ** The store across a call *)

Lemma claimed_sheet_flag_lookup (sh : Sheet) (row : Z) (claimedBy : Value) (now : Z) :
  claimed_sheet sh row claimedBy now !! (row, 6) = Some (VStr "TRUE").
Proof.
  unfold claimed_sheet.
  destruct (truthy claimedBy);
    rewrite !lookup_insert_ne by (intros [=]); by rewrite lookup_insert_eq.
Qed.

(** A claim writes content only, to a row that is not past the last row:
    the last row stays where it was. *)
Lemma claimed_sheet_last_row (sh : Sheet) (row : Z) (claimedBy : Value) (now : Z) :
  2 <= row <= last_row sh ->
  last_row (claimed_sheet sh row claimedBy now) = last_row sh.
Proof.
  intros Hrow.
  pose proof (last_row_ge _ _ _ _ (claimed_sheet_flag_lookup sh row claimedBy now) eq_refl)
    as Hge.
  apply Z.le_antisymm.
  - destruct (last_row_attained (claimed_sheet sh row claimedBy now))
      as [H0 | (c & v & Hv & Hne)]; [lia|].
    destruct (decide (last_row (claimed_sheet sh row claimedBy now) = row)) as [->|Hother];
      [lia|].
    rewrite claimed_sheet_frame in Hv by congruence.
    by eapply last_row_ge.
  - destruct (last_row_attained sh) as [H0 | (c & v & Hv & Hne)]; [lia|].
    destruct (decide (last_row sh = row)) as [Heq|Hother]; [lia|].
    rewrite <- (claimed_sheet_frame sh row claimedBy now) in Hv by congruence.
    by eapply last_row_ge.
Qed.

(** A call of [get_property] does not reach the store and always ends. *)
Lemma run_get_property (params : Data) (p : string) (w : World) :
  (exists d, get_property params p w = (Returns d, w)) \/
  (exists message, get_property params p w = (Throws message, w)).
Proof.
  destruct params as [[| | | | |]| |]; simpl;
    try (left; eexists; reflexivity); right; eexists; reflexivity.
Qed.

(** [claimItem] is within the model on every input. *)
Lemma claimItem_modelled (w : World) (rowIndex : Z) (claimedBy : Value) :
  fst (claimItem rowIndex claimedBy w) <> Unmodelled.
Proof.
  destruct (sheets w !! SHEET_NAME) as [sh|] eqn:Hsh.
  - rewrite (run_claimItem _ _ _ _ Hsh).
    destruct ((rowIndex <? 2) || (rowIndex >? last_row sh)); [done|].
    by destruct (isClaimed (cell sh rowIndex 6)).
  - by rewrite (run_claimItem_missing _ _ _ Hsh).
Qed.

(** The ways a call of [doPost] ends: with a response built without
    reaching the store, outside the model, or with the response to a call of
    [claimItem]. *)
Lemma run_doPost (e : Event) (w : World) :
  (exists data status, doPost e w = (Returns (createJsonResponse data status), w)) \/
  doPost e w = (Unmodelled, w) \/
  (exists rowIndex claimedBy,
      doPost e w = claim_response (claimItem rowIndex claimedBy w)).
Proof.
  unfold doPost, try_catch, bind, ret, throw, unmodelled.
  destruct (JSON_parse (contents (postData e))) as [message|params];
    [left; by eexists _, _|].
  cbv beta iota zeta.
  destruct (run_get_property params "action" w) as [[action ->] | [message ->]];
    [|left; by eexists _, _].
  destruct (is_claim action); [|left; by eexists _, _].
  destruct (run_get_property params "rowIndex" w) as [[rowIndex ->] | [message ->]];
    [|left; by eexists _, _].
  destruct (run_get_property params "claimedBy" w) as [[claimedBy ->] | [message ->]];
    [|left; by eexists _, _].
  destruct rowIndex as [[| | |n| |]| |]; try (right; left; reflexivity).
  destruct claimedBy as [v| |]; try (right; left; reflexivity).
  right. right. exists n, v. unfold claim_response.
  by destruct (claimItem n v w) as [[result|message|] w'].
Qed.

(** The claim branch of [doPost], for a body that parses to an object with
    the action ['claim'], an integer [rowIndex] and a scalar [claimedBy]. *)
Lemma run_doPost_claim (e : Event) (w : World) (fields : list (string * Data))
      (rowIndex : Z) (claimedBy : Value) :
  JSON_parse (contents (postData e)) = inr (DObj fields) ->
  field fields "action" = DVal (VStr "claim") ->
  field fields "rowIndex" = DVal (VNum rowIndex) ->
  field fields "claimedBy" = DVal claimedBy ->
  doPost e w = claim_response (claimItem rowIndex claimedBy w).
Proof.
  intros Hparse Haction Hrow Hby.
  unfold doPost, try_catch, bind. rewrite Hparse. unfold ret at 1.
  unfold get_property, ret. rewrite Haction, Hrow, Hby.
  change (is_claim (DVal (VStr "claim"))) with true. cbv beta iota.
  unfold claim_response.
  by destruct (claimItem rowIndex claimedBy w) as [[result|message|] w'].
Qed.

(** X6: without a sheet called REGISTRY, [getRegistryData] and [claimItem]
    both throw the error that names the missing sheet, and leave the store
    as it was. *)
Theorem X6_missing_sheet_is_an_error (w : World) (rowIndex : Z) (claimedBy : Value) :
  sheets w !! SHEET_NAME = None ->
  getRegistryData w = (Throws sheet_not_found, w) /\
  claimItem rowIndex claimedBy w = (Throws sheet_not_found, w) /\
  sheet_not_found = "Sheet " +:+ dquote +:+ "REGISTRY" +:+ dquote +:+ " not found".
Proof.
  intros Hsh. split; [by apply run_getRegistryData_missing|].
  split; [by apply run_claimItem_missing | reflexivity].
Qed.

(** X7: [doGet] never throws and never changes the store.  It answers with
    the listing as JSON when the sheet is there, and with the body
    [{ error: message }] of the missing-sheet error when it is not. *)
Theorem X7_doGet_always_answers (w : World) :
  exists out : TextOutput,
    doGet w = (Returns out, w) /\
    mimeType out = JSON /\
    content out =
      JSON_stringify
        match sheets w !! SHEET_NAME with
        | Some sh => DObj [("items", DArr (registry_items (data_range_values sh)))]
        | None => error_body sheet_not_found
        end.
Proof.
  unfold doGet, try_catch, bind.
  destruct (sheets w !! SHEET_NAME) as [sh|] eqn:Hsh.
  - rewrite (run_getRegistryData _ _ Hsh). by eexists.
  - rewrite (run_getRegistryData_missing _ Hsh). by eexists.
Qed.

(** X8: the listing and [claimItem] agree on the claim flag.  For an item
    listed under the id [i], a claim sent to row [i + 1], the row that the
    item shows, is rejected as already claimed when the item is listed as
    claimed, and succeeds when it is listed as not claimed. *)
Theorem X8_listed_flag_decides_the_claim
        (w : World) (sh : Sheet) (items : list Data) (it : Data)
        (i : Z) (claimed : bool) (claimedBy : Value) :
  sheets w !! SHEET_NAME = Some sh ->
  getRegistryData w = (Returns (DObj [("items", DArr items)]), w) ->
  it ∈ items ->
  item_id it = DVal (VNum i) ->
  item_field it "claimed" = DVal (VBool claimed) ->
  fst (claimItem (i + 1) claimedBy w) =
  if claimed then Returns (claim_result false "Item already claimed")
  else Returns (claim_result true "Item claimed successfully").
Proof.
  intros Hsh Hrun Hin Hid Hflag. rewrite (run_getRegistryData _ _ Hsh) in Hrun.
  injection Hrun as <-.
  apply elem_of_listing in Hin as (r & Hr & _ & ->).
  injection Hid as <-. injection Hflag as <-.
  replace (r - 1 + 1) with r by lia.
  rewrite (run_claimItem _ _ _ _ Hsh), (in_range _ _ Hr).
  by destruct (isClaimed (cell sh r 6)).
Qed.

(** X9: a second claim of a row that was just claimed is rejected as already
    claimed, whoever sends it, and leaves the store as the first claim made
    it: the first claimant and the first timestamp stay. *)
Theorem X9_second_claim_is_rejected
        (w : World) (sh : Sheet) (rowIndex : Z) (guest1 guest2 : Value) :
  sheets w !! SHEET_NAME = Some sh ->
  2 <= rowIndex <= last_row sh ->
  isClaimed (cell sh rowIndex 6) = false ->
  exists w' : World,
    claimItem rowIndex guest1 w =
      (Returns (claim_result true "Item claimed successfully"), w') /\
    claimItem rowIndex guest2 w' =
      (Returns (claim_result false "Item already claimed"), w').
Proof.
  intros Hsh Hrange Hfree. eexists.
  rewrite (run_claimItem _ _ _ _ Hsh), (in_range _ _ Hrange), Hfree.
  split; [reflexivity|].
  erewrite run_claimItem by (simpl; apply lookup_insert_eq).
  rewrite claimed_sheet_last_row by done.
  by rewrite (in_range _ _ Hrange), claimed_sheet_flag.
Qed.

(** X10: [claimItem] changes nothing outside the REGISTRY sheet: every other
    sheet of the spreadsheet and the clock are after the call what they were
    before it, however the call ends. *)
Theorem X10_claimItem_keeps_other_sheets
        (w : World) (rowIndex : Z) (claimedBy : Value) (name : string) :
  name <> SHEET_NAME ->
  sheets (snd (claimItem rowIndex claimedBy w)) !! name = sheets w !! name /\
  clock (snd (claimItem rowIndex claimedBy w)) = clock w.
Proof.
  intros Hname. destruct (sheets w !! SHEET_NAME) as [sh|] eqn:Hsh.
  - rewrite (run_claimItem _ _ _ _ Hsh).
    destruct ((rowIndex <? 2) || (rowIndex >? last_row sh)); [done|].
    destruct (isClaimed (cell sh rowIndex 6)); [done|].
    simpl. by rewrite lookup_insert_ne.
  - by rewrite (run_claimItem_missing _ _ _ Hsh).
Qed.

(** X11: no write request takes a claim back.  Whatever the body of the
    request, a row whose flag read as claimed before [doPost] reads as
    claimed after it. *)
Theorem X11_doPost_never_unclaims
        (e : Event) (w : World) (sh : Sheet) (row : Z) :
  sheets w !! SHEET_NAME = Some sh ->
  isClaimed (cell sh row 6) = true ->
  isClaimed (cell (the_sheet (snd (doPost e w)) SHEET_NAME) row 6) = true.
Proof.
  intros Hsh Hclaimed.
  assert (Hsame : isClaimed (cell (the_sheet w SHEET_NAME) row 6) = true)
    by (unfold the_sheet; by rewrite Hsh).
  destruct (run_doPost e w) as [(data & status & ->) | [-> | (r & c & ->)]];
    [done | done |].
  pose proof (claimed_is_monotonic w sh r c row Hsh Hclaimed) as Hmono.
  unfold claim_response.
  by destruct (claimItem r c w) as [[result|message|] w'].
Qed.

(** X12: [doPost] never throws.  It returns a response of the JSON content
    type for every body that does not parse, for every body that parses to
    something else than a claim request, and for every claim request with an
    integer [rowIndex] and a scalar [claimedBy], whatever the store holds.
    The requests left, claim requests with another [rowIndex] or
    [claimedBy], are the ones outside the model. *)
Theorem X12_doPost_never_throws (e : Event) (w : World) :
  if modelled_request e
  then exists (out : TextOutput) (w' : World),
         doPost e w = (Returns out, w') /\ mimeType out = JSON
  else doPost e w = (Unmodelled, w).
Proof.
  unfold modelled_request.
  destruct (JSON_parse (contents (postData e))) as [message|params] eqn:Hparse.
  { rewrite (run_doPost_malformed _ _ _ Hparse). by eexists _, _. }
  destruct params as [v| |fields].
  - unfold doPost, try_catch, bind. rewrite Hparse.
    destruct v; by eexists _, _.
  - unfold doPost, try_catch, bind. rewrite Hparse. by eexists _, _.
  - destruct (is_claim (field fields "action")) eqn:Hclaim; cbn [negb orb].
    + apply is_claim_true in Hclaim.
      destruct (field fields "rowIndex") as [[| | |n| |]| |] eqn:Hrow;
        destruct (field fields "claimedBy") as [c| |] eqn:Hby;
        cbv beta iota;
        try (unfold doPost, try_catch, bind; rewrite Hparse; unfold ret at 1;
             unfold get_property, ret; by rewrite ?Hclaim, ?Hrow, ?Hby).
      rewrite (run_doPost_claim _ _ _ _ _ Hparse Hclaim Hrow Hby).
      pose proof (claimItem_modelled w n c) as Hmod. unfold claim_response.
      destruct (claimItem n c w) as [[result|message|] w']; simpl in *;
        [by eexists _, _ | by eexists _, _ | done].
    + unfold doPost, try_catch, bind. rewrite Hparse. unfold ret at 1.
      unfold get_property, ret. rewrite Hclaim. by eexists _, _.
Qed.

(** X13: a claim request for a row below 2 or past the last row is answered
    with the body [{ error: "Invalid row index" }], and the store is left as
    it was. *)
Theorem X13_doPost_invalid_row
        (e : Event) (w : World) (sh : Sheet) (fields : list (string * Data))
        (rowIndex : Z) (claimedBy : Value) :
  JSON_parse (contents (postData e)) = inr (DObj fields) ->
  field fields "action" = DVal (VStr "claim") ->
  field fields "rowIndex" = DVal (VNum rowIndex) ->
  field fields "claimedBy" = DVal claimedBy ->
  sheets w !! SHEET_NAME = Some sh ->
  rowIndex < 2 \/ rowIndex > last_row sh ->
  doPost e w =
  (Returns (createJsonResponse (error_body "Invalid row index") 500), w).
Proof.
  intros Hparse Haction Hrow Hby Hsh Hout.
  rewrite (run_doPost_claim _ _ _ _ _ Hparse Haction Hrow Hby).
  by rewrite (run_claimItem _ _ _ _ Hsh), (out_of_range _ _ Hout).
Qed.

(** X14: a claim request for a row between 2 and the last row is answered
    with the result of [claimItem], success or 'Item already claimed'
    according to the flag of the row, and in both cases the flag of the row
    reads as claimed after the request. *)
Theorem X14_doPost_claims_the_row
        (e : Event) (w : World) (sh : Sheet) (fields : list (string * Data))
        (rowIndex : Z) (claimedBy : Value) :
  JSON_parse (contents (postData e)) = inr (DObj fields) ->
  field fields "action" = DVal (VStr "claim") ->
  field fields "rowIndex" = DVal (VNum rowIndex) ->
  field fields "claimedBy" = DVal claimedBy ->
  sheets w !! SHEET_NAME = Some sh ->
  2 <= rowIndex <= last_row sh ->
  exists w' : World,
    doPost e w =
    (Returns (createJsonResponse
                (if isClaimed (cell sh rowIndex 6)
                 then claim_result false "Item already claimed"
                 else claim_result true "Item claimed successfully") 200), w') /\
    isClaimed (cell (the_sheet w' SHEET_NAME) rowIndex 6) = true.
Proof.
  intros Hparse Haction Hrow Hby Hsh Hrange.
  rewrite (run_doPost_claim _ _ _ _ _ Hparse Haction Hrow Hby).
  rewrite (run_claimItem _ _ _ _ Hsh), (in_range _ _ Hrange).
  destruct (isClaimed (cell sh rowIndex 6)) eqn:Hflag; eexists; (split; [reflexivity|]).
  - unfold the_sheet. by rewrite Hsh.
  - by rewrite the_sheet_insert, claimed_sheet_flag.
Qed.

(** X15: a body that parses to [null] is answered with the body
    [{ error: message }] of the [TypeError] that reading [action] from
    [null] raises, and the store is left as it was. *)
Theorem X15_doPost_null_body (e : Event) (w : World) :
  JSON_parse (contents (postData e)) = inr (DVal VNull) ->
  doPost e w =
  (Returns (createJsonResponse
              (error_body (TypeError_message VNull "action")) 500), w).
Proof.
  intros Hparse. unfold doPost, try_catch, bind. by rewrite Hparse.
Qed.

(** X16: a body that is not JSON is answered with the body
    [{ error: message }] of the parse error, as JSON text, and the store is
    left as it was. *)
Theorem X16_doPost_malformed_body (e : Event) (w : World) (message : string) :
  JSON_parse (contents (postData e)) = inl message ->
  exists out : TextOutput,
    doPost e w = (Returns out, w) /\
    content out = JSON_stringify (error_body message) /\
    mimeType out = JSON.
Proof.
  intros Hparse. rewrite (run_doPost_malformed _ _ _ Hparse). by eexists.
Qed.

(** X17: after a successful claim of a listed row, the next listing shows
    the item of that row, under the same id, as claimed and with the
    claimant that was given. *)
Theorem X17_claim_shows_in_the_listing
        (w : World) (sh : Sheet) (rowIndex : Z) (claimedBy : Value) :
  sheets w !! SHEET_NAME = Some sh ->
  2 <= rowIndex <= last_row sh ->
  isClaimed (cell sh rowIndex 6) = false ->
  has_name (cell sh rowIndex 1) = true ->
  truthy claimedBy = true ->
  exists (w' : World) (items : list Data) (it : Data),
    claimItem rowIndex claimedBy w =
      (Returns (claim_result true "Item claimed successfully"), w') /\
    getRegistryData w' = (Returns (DObj [("items", DArr items)]), w') /\
    it ∈ items /\
    item_id it = DVal (VNum (rowIndex - 1)) /\
    item_field it "productName" = DVal (cell sh rowIndex 1) /\
    item_field it "claimed" = DVal (VBool true) /\
    item_field it "claimedBy" = DVal claimedBy.
Proof.
  intros Hsh Hrange Hfree Hname Hby.
  set (sh' := claimed_sheet sh rowIndex claimedBy (clock w)).
  assert (Hfirst : cell sh' rowIndex 1 = cell sh rowIndex 1).
  { unfold cell, sh'. by rewrite claimed_sheet_frame by (intros [=]). }
  eexists _, (registry_items (data_range_values sh')), (row_item sh' rowIndex).
  rewrite (run_claimItem _ _ _ _ Hsh), (in_range _ _ Hrange), Hfree.
  split; [reflexivity|]. split.
  { apply run_getRegistryData. simpl. apply lookup_insert_eq. }
  split.
  { apply elem_of_listing. exists rowIndex.
    unfold sh'. rewrite claimed_sheet_last_row by done.
    fold sh'. by rewrite Hfirst. }
  split; [done|].
  unfold row_item, item_field, field. simpl.
  rewrite Hfirst. unfold sh'. rewrite claimed_sheet_flag.
  assert (Hcell : cell (claimed_sheet sh rowIndex claimedBy (clock w)) rowIndex 7
                  = claimedBy)
    by (unfold cell; by rewrite claimed_sheet_claimant, Hby).
  apply andb_true_iff in Hname as [Ht _].
  rewrite Hcell. unfold js_or. by rewrite Ht, Hby.
Qed.

(** X18: a successful claim changes the listing at the claimed row only.
    An item under another id is listed after the claim exactly when it was
    listed before it, with the same fields. *)
Theorem X18_claim_keeps_the_other_items
        (w : World) (sh : Sheet) (rowIndex : Z) (claimedBy : Value) (it : Data) :
  sheets w !! SHEET_NAME = Some sh ->
  2 <= rowIndex <= last_row sh ->
  isClaimed (cell sh rowIndex 6) = false ->
  item_id it <> DVal (VNum (rowIndex - 1)) ->
  exists (w' : World) (before after : list Data),
    getRegistryData w = (Returns (DObj [("items", DArr before)]), w) /\
    claimItem rowIndex claimedBy w =
      (Returns (claim_result true "Item claimed successfully"), w') /\
    getRegistryData w' = (Returns (DObj [("items", DArr after)]), w') /\
    (it ∈ after <-> it ∈ before).
Proof.
  intros Hsh Hrange Hfree Hid.
  set (sh' := claimed_sheet sh rowIndex claimedBy (clock w)).
  assert (Hcell : forall r c, r <> rowIndex -> cell sh' r c = cell sh r c).
  { intros r c Hr. unfold cell, sh'. by rewrite claimed_sheet_frame by congruence. }
  assert (Hitem : forall r, r <> rowIndex -> row_item sh' r = row_item sh r).
  { intros r Hr. unfold row_item. by rewrite !Hcell by done. }
  eexists _, (registry_items (data_range_values sh)),
          (registry_items (data_range_values sh')).
  rewrite (run_claimItem _ _ _ _ Hsh), (in_range _ _ Hrange), Hfree.
  split; [by apply run_getRegistryData|].
  split; [reflexivity|].
  split; [apply run_getRegistryData; simpl; apply lookup_insert_eq|].
  rewrite !elem_of_listing. unfold sh' at 1.
  rewrite claimed_sheet_last_row by done. fold sh'.
  split; intros (r & Hr & Hname & ->); exists r;
    (assert (Hne : r <> rowIndex) by (intros ->; by apply Hid)).
  - by rewrite <- Hcell, <- Hitem.
  - by rewrite Hcell, Hitem.
Qed.

End Script.

(** ** The handlers on the sample sheet *)

Import SampleHost.

Definition toaster_item : Data :=
  make_item Date_toString 1
    [VStr "Toaster"; VStr "Acme"; VStr ""; VStr ""; VStr ""; VStr ""; VStr ""].

Definition kettle_item : Data :=
  make_item Date_toString 3
    [VStr "Kettle"; VStr ""; VStr ""; VStr ""; VStr ""; VStr "Yes"; VStr "Sam"].

(** The listing of the sample sheet: the toaster of row 2 has [id] 1, the
    kettle of row 4 has [id] 3, and row 3 is left out. *)
Example listing_of_world :
  getRegistryData Date_toString world =
  (Returns (DObj [("items", DArr [toaster_item; kettle_item])]), world).
Proof. vm_compute. reflexivity. Qed.

(** A sheet that holds its header and nothing else lists no item. *)
Example listing_of_header_only :
  fst (getRegistryData Date_toString
         (mkWorld {[ "REGISTRY" := {[ (1, 1) := VStr "Product Name" ]} ]} 0))
  = Returns (DObj [("items", DArr [])]).
Proof. vm_compute. reflexivity. Qed.

(** A client that sends back the [id] of the toaster is refused, and one
    that sends back the [id] of the kettle claims row 3, not the kettle. *)
Example claim_by_listed_id :
  fst (claimItem Date_toString 1 (VStr "Alex") world) = Throws "Invalid row index" /\
  cell registry_sheet 4 1 = VStr "Kettle" /\
  cell registry_sheet 3 1 = VStr "" /\
  exists w',
    claimItem Date_toString 3 (VStr "Alex") world =
      (Returns (claim_result true "Item claimed successfully"), w') /\
    cell (the_sheet w' SHEET_NAME) 3 7 = VStr "Alex" /\
    cell (the_sheet w' SHEET_NAME) 4 7 = VStr "Sam".
Proof.
  split; [vm_compute; reflexivity|]. split; [reflexivity|]. split; [reflexivity|].
  eexists. split; [vm_compute; reflexivity|]. split; vm_compute; reflexivity.
Qed.

(** The three kinds of write request on the sample sheet. *)
Example doPost_claim :
  exists w',
    doPost Date_toString JSON_parse JSON_stringify TypeError_message claim_event world
    = (Returns (createJsonResponse JSON_stringify
                  (claim_result true "Item claimed successfully") 200), w') /\
    cell (the_sheet w' SHEET_NAME) 2 6 = VStr "TRUE" /\
    cell (the_sheet w' SHEET_NAME) 2 7 = VStr "Alex" /\
    cell (the_sheet w' SHEET_NAME) 2 8 = VDate (clock world).
Proof. eexists. repeat split; vm_compute; reflexivity. Qed.

Example doPost_delete :
  doPost Date_toString JSON_parse JSON_stringify TypeError_message delete_event world
  = (Returns (mkTextOutput ("{" +:+ dquote +:+ "error" +:+ dquote +:+ ":" +:+
                            dquote +:+ "Invalid action" +:+ dquote +:+ "}") JSON),
     world).
Proof. vm_compute. reflexivity. Qed.

Example doPost_malformed :
  doPost Date_toString JSON_parse JSON_stringify TypeError_message malformed_event world
  = (Returns (createJsonResponse JSON_stringify (error_body "Unexpected token") 500),
     world).
Proof. vm_compute. reflexivity. Qed.

Lemma C1_listed_id_witness :
  exists (i : nat) (row : list Value),
    (1 <= i)%nat /\
    toaster_item = make_item Date_toString i row /\
    item_id toaster_item = DVal (VNum (Z.of_nat i)) /\
    data_range_values registry_sheet !! i = Some row /\
    (forall (k : nat) (v : Value),
        row !! k = Some v ->
        v = cell registry_sheet (Z.of_nat i + 1) (Z.of_nat k + 1)).
Proof.
  apply (C1_listed_id_is_one_below_the_row_number
           Date_toString world registry_sheet [toaster_item; kettle_item]).
  - reflexivity.
  - vm_compute. reflexivity.
  - apply list_elem_of_here.
Defined.

Lemma C8_listing_witness :
  exists items : list Data,
    getRegistryData Date_toString world =
      (Returns (DObj [("items", DArr items)]), world) /\
    (forall (i : nat) (row : list Value),
        data_range_values registry_sheet !! i = Some row ->
        is_blank (at_index row 0) = true ->
        forall it, it ∈ items -> item_id it <> DVal (VNum (Z.of_nat i))) /\
    ((length (data_range_values registry_sheet) < 2)%nat -> items = []).
Proof.
  apply (C8_listing_skips_blank_rows Date_toString world registry_sheet).
  reflexivity.
Defined.

Lemma C2_already_claimed_witness :
  exists w' : World,
    claimItem Date_toString 4 (VStr "Alex") world =
      (Returns (claim_result false "Item already claimed"), w') /\
    w' = world /\
    (forall column : Z,
        cell (the_sheet w' SHEET_NAME) 4 column = cell registry_sheet 4 column).
Proof.
  apply (C2_already_claimed_is_rejected Date_toString world registry_sheet 4 (VStr "Alex")).
  - reflexivity.
  - vm_compute. split; discriminate.
  - vm_compute. reflexivity.
Defined.

Lemma C4_claim_witness :
  exists (w' : World) (sh' : Sheet),
    claimItem Date_toString 2 (VStr "Alex") world =
      (Returns (claim_result true "Item claimed successfully"), w') /\
    sheets w' !! SHEET_NAME = Some sh' /\
    isClaimed Date_toString (cell sh' 2 6) = true /\
    (truthy (VStr "Alex") = true -> cell sh' 2 7 = VStr "Alex") /\
    cell sh' 2 8 = VDate (clock world) /\
    (forall row column : Z,
        (row, column) <> (2, 6) -> (row, column) <> (2, 7) ->
        (row, column) <> (2, 8) ->
        cell sh' row column = cell registry_sheet row column).
Proof.
  apply (C4_claim_of_unclaimed_row Date_toString world registry_sheet 2 (VStr "Alex")).
  - reflexivity.
  - vm_compute. split; discriminate.
  - vm_compute. reflexivity.
Defined.

Lemma C5_out_of_range_witness :
  claimItem Date_toString 1 (VStr "Alex") world = (Throws "Invalid row index", world) /\
  claimItem Date_toString 5 (VStr "Alex") world = (Throws "Invalid row index", world).
Proof.
  split.
  - apply (C5_row_index_out_of_range Date_toString world registry_sheet 1 (VStr "Alex"));
      [reflexivity | left; reflexivity].
  - apply (C5_row_index_out_of_range Date_toString world registry_sheet 5 (VStr "Alex"));
      [reflexivity | right; vm_compute; reflexivity].
Defined.

(** C7 as stated fails: row 3 of the sample sheet has an empty first column,
    and the claim addressed to row 3 succeeds. *)
Lemma C7_blank_row_claim_succeeds :
  is_blank (cell registry_sheet 3 1) = true /\
  fst (claimItem Date_toString 3 (VStr "Alex") world) =
  Returns (claim_result true "Item claimed successfully").
Proof. split; vm_compute; reflexivity. Qed.

Lemma C7_blank_row_witness :
  (forall (it : Data) (row : list Value),
      it ∈ registry_items Date_toString (data_range_values registry_sheet) ->
      it <> make_item Date_toString (Z.to_nat (3 - 1)) row) /\
  fst (claimItem Date_toString 3 (VStr "Alex") world) =
  if isClaimed Date_toString (cell registry_sheet 3 6)
  then Returns (claim_result false "Item already claimed")
  else Returns (claim_result true "Item claimed successfully").
Proof.
  apply (C7_blank_row_is_claimable Date_toString world registry_sheet 3 (VStr "Alex")).
  - reflexivity.
  - vm_compute. reflexivity.
  - vm_compute. split; discriminate.
Defined.

Lemma C9_no_claimant_witness :
  exists (w' : World) (sh' : Sheet),
    claimItem Date_toString 2 VUndefined world =
      (Returns (claim_result true "Item claimed successfully"), w') /\
    sheets w' !! SHEET_NAME = Some sh' /\
    sh' !! (2, 7) = registry_sheet !! (2, 7) /\
    cell sh' 2 7 = cell registry_sheet 2 7.
Proof.
  apply (C9_claim_without_claimant Date_toString world registry_sheet 2 VUndefined).
  - reflexivity.
  - vm_compute. split; discriminate.
  - vm_compute. reflexivity.
  - left. reflexivity.
Defined.

(** C6 fails on the request [{ action: "delete" }]: its response carries
    no client-error status, since the very same response is built with the
    status 200. *)
Lemma C6_status_is_not_carried :
  exists out : TextOutput,
    doPost Date_toString JSON_parse JSON_stringify TypeError_message
           delete_event world = (Returns out, world) /\
    ~ (exists status : Z,
          400 <= status < 500 /\ carries_status JSON_stringify out status).
Proof.
  exists (createJsonResponse JSON_stringify (error_body "Invalid action") 400).
  split; [vm_compute; reflexivity|].
  intros (status & Hrange & Hcarries).
  specialize (Hcarries (error_body "Invalid action") 200 eq_refl). lia.
Qed.

Lemma C6_invalid_action_witness :
  exists out : TextOutput,
    doPost Date_toString JSON_parse JSON_stringify TypeError_message
           delete_event world = (Returns out, world) /\
    content out = JSON_stringify (error_body "Invalid action") /\
    mimeType out = JSON /\
    (forall status : Z,
        out = createJsonResponse JSON_stringify (error_body "Invalid action") status) /\
    (forall status : Z, ~ carries_status JSON_stringify out status).
Proof.
  apply (C6_invalid_action_response
           Date_toString JSON_parse JSON_stringify TypeError_message
           delete_event world delete_request (DVal (VStr "delete"))).
  - vm_compute. reflexivity.
  - reflexivity.
  - discriminate.
Defined.

(** ** The further properties on the sample sheet *)

Lemma X1_case_and_padding_witness :
  isClaimed Date_toString (VStr ("  " +:+ "YES" +:+ " ")) =
  isClaimed Date_toString (VStr "yes").
Proof.
  apply (X1_isClaimed_ignores_case_and_padding Date_toString "  " "YES" "yes" " ");
    reflexivity.
Defined.

Lemma X3_named_rows_witness :
  exists (items : list Data) (it : Data),
    getRegistryData Date_toString world =
      (Returns (DObj [("items", DArr items)]), world) /\
    it ∈ items /\
    item_id it = DVal (VNum (4 - 1)) /\
    item_field it "productName" = DVal (cell registry_sheet 4 1).
Proof.
  apply (X3_named_rows_are_listed Date_toString world registry_sheet 4).
  - reflexivity.
  - vm_compute. split; discriminate.
  - reflexivity.
  - vm_compute. discriminate.
Defined.

Lemma X4_listed_item_witness :
  exists r : Z,
    2 <= r <= last_row registry_sheet /\
    kettle_item =
    DObj [ ("id", DVal (VNum (r - 1)));
           ("productName", DVal (cell registry_sheet r 1));
           ("manufacturer", DVal (js_or (cell registry_sheet r 2) (VStr "")));
           ("price", DVal (js_or (cell registry_sheet r 3) (VStr "")));
           ("productUrl", DVal (js_or (cell registry_sheet r 4) (VStr "")));
           ("imageUrl", DVal (js_or (cell registry_sheet r 5) (VStr "")));
           ("claimed", DVal (VBool (isClaimed Date_toString (cell registry_sheet r 6))));
           ("claimedBy", DVal (js_or (cell registry_sheet r 7) (VStr ""))) ].
Proof.
  apply (X4_listed_item_shows_its_row
           Date_toString world registry_sheet [toaster_item; kettle_item]).
  - reflexivity.
  - vm_compute. reflexivity.
  - apply list_elem_of_further, list_elem_of_here.
Defined.

Lemma X5_ids_increase_witness :
  (exists p : nat,
      item_id toaster_item = DVal (VNum (Z.of_nat p)) /\
      (1 <= p < length (data_range_values single_item_sheet))%nat) /\
  (exists p q : nat,
      item_id toaster_item = DVal (VNum (Z.of_nat p)) /\
      item_id kettle_item = DVal (VNum (Z.of_nat q)) /\
      (1 <= p < q)%nat /\ (q < length (data_range_values registry_sheet))%nat).
Proof.
  split.
  - apply (proj1 (X5_listing_ids_increase
                    Date_toString (data_range_values single_item_sheet)) 0%nat).
    vm_compute. reflexivity.
  - apply (proj2 (X5_listing_ids_increase
                    Date_toString (data_range_values registry_sheet)) 0%nat 1%nat).
    + vm_compute. reflexivity.
    + vm_compute. reflexivity.
    + lia.
Defined.

Lemma X6_missing_sheet_witness :
  getRegistryData Date_toString world_without_registry =
    (Throws sheet_not_found, world_without_registry) /\
  claimItem Date_toString 2 (VStr "Alex") world_without_registry =
    (Throws sheet_not_found, world_without_registry) /\
  sheet_not_found = "Sheet " +:+ dquote +:+ "REGISTRY" +:+ dquote +:+ " not found".
Proof.
  apply (X6_missing_sheet_is_an_error
           Date_toString world_without_registry 2 (VStr "Alex")).
  reflexivity.
Defined.

Lemma X8_listed_flag_witness :
  fst (claimItem Date_toString (3 + 1) (VStr "Alex") world) =
  Returns (claim_result false "Item already claimed").
Proof.
  apply (X8_listed_flag_decides_the_claim
           Date_toString world registry_sheet [toaster_item; kettle_item]
           kettle_item 3 true (VStr "Alex")).
  - reflexivity.
  - vm_compute. reflexivity.
  - apply list_elem_of_further, list_elem_of_here.
  - reflexivity.
  - reflexivity.
Defined.

Lemma X9_second_claim_witness :
  exists w' : World,
    claimItem Date_toString 2 (VStr "Alex") world =
      (Returns (claim_result true "Item claimed successfully"), w') /\
    claimItem Date_toString 2 (VStr "Robin") w' =
      (Returns (claim_result false "Item already claimed"), w').
Proof.
  apply (X9_second_claim_is_rejected
           Date_toString world registry_sheet 2 (VStr "Alex") (VStr "Robin")).
  - reflexivity.
  - vm_compute. split; discriminate.
  - vm_compute. reflexivity.
Defined.

Lemma X10_other_sheets_witness :
  sheets (snd (claimItem Date_toString 2 (VStr "Alex") world_with_guests)) !! "Guests"
  = sheets world_with_guests !! "Guests" /\
  clock (snd (claimItem Date_toString 2 (VStr "Alex") world_with_guests))
  = clock world_with_guests.
Proof.
  apply (X10_claimItem_keeps_other_sheets
           Date_toString world_with_guests 2 (VStr "Alex") "Guests").
  vm_compute. discriminate.
Defined.

Lemma X11_never_unclaims_witness :
  isClaimed Date_toString
    (cell (the_sheet
             (snd (doPost Date_toString JSON_parse JSON_stringify TypeError_message
                     claim_event world))
             SHEET_NAME) 4 6) = true.
Proof.
  apply (X11_doPost_never_unclaims
           Date_toString JSON_parse JSON_stringify TypeError_message
           claim_event world registry_sheet 4).
  - reflexivity.
  - vm_compute. reflexivity.
Defined.

Lemma X12_never_throws_witness :
  exists (out : TextOutput) (w' : World),
    doPost Date_toString JSON_parse JSON_stringify TypeError_message
           claim_event world = (Returns out, w') /\
    mimeType out = JSON.
Proof.
  exact (X12_doPost_never_throws
           Date_toString JSON_parse JSON_stringify TypeError_message
           claim_event world).
Defined.

Lemma X13_invalid_row_witness :
  doPost Date_toString JSON_parse JSON_stringify TypeError_message
         claim_event header_world =
  (Returns (createJsonResponse JSON_stringify (error_body "Invalid row index") 500),
   header_world).
Proof.
  apply (X13_doPost_invalid_row
           Date_toString JSON_parse JSON_stringify TypeError_message
           claim_event header_world {[ (1, 1) := VStr "Product Name" ]}
           [("action", DVal (VStr "claim")); ("rowIndex", DVal (VNum 2));
            ("claimedBy", DVal (VStr "Alex"))] 2 (VStr "Alex")).
  - vm_compute. reflexivity.
  - reflexivity.
  - reflexivity.
  - reflexivity.
  - reflexivity.
  - right. vm_compute. reflexivity.
Defined.

Lemma X14_claims_the_row_witness :
  exists w' : World,
    doPost Date_toString JSON_parse JSON_stringify TypeError_message
           claim_event world =
    (Returns (createJsonResponse JSON_stringify
                (if isClaimed Date_toString (cell registry_sheet 2 6)
                 then claim_result false "Item already claimed"
                 else claim_result true "Item claimed successfully") 200), w') /\
    isClaimed Date_toString (cell (the_sheet w' SHEET_NAME) 2 6) = true.
Proof.
  apply (X14_doPost_claims_the_row
           Date_toString JSON_parse JSON_stringify TypeError_message
           claim_event world registry_sheet
           [("action", DVal (VStr "claim")); ("rowIndex", DVal (VNum 2));
            ("claimedBy", DVal (VStr "Alex"))] 2 (VStr "Alex")).
  - vm_compute. reflexivity.
  - reflexivity.
  - reflexivity.
  - reflexivity.
  - reflexivity.
  - vm_compute. split; discriminate.
Defined.

Lemma X15_null_body_witness :
  doPost Date_toString JSON_parse_null JSON_stringify TypeError_message
         null_event world =
  (Returns (createJsonResponse JSON_stringify
              (error_body (TypeError_message VNull "action")) 500), world).
Proof.
  apply (X15_doPost_null_body
           Date_toString JSON_parse_null JSON_stringify TypeError_message
           null_event world).
  reflexivity.
Defined.

Lemma X16_malformed_body_witness :
  exists out : TextOutput,
    doPost Date_toString JSON_parse JSON_stringify TypeError_message
           malformed_event world = (Returns out, world) /\
    content out = JSON_stringify (error_body "Unexpected token") /\
    mimeType out = JSON.
Proof.
  apply (X16_doPost_malformed_body
           Date_toString JSON_parse JSON_stringify TypeError_message
           malformed_event world "Unexpected token").
  vm_compute. reflexivity.
Defined.

Lemma X17_claim_in_listing_witness :
  exists (w' : World) (items : list Data) (it : Data),
    claimItem Date_toString 2 (VStr "Alex") world =
      (Returns (claim_result true "Item claimed successfully"), w') /\
    getRegistryData Date_toString w' =
      (Returns (DObj [("items", DArr items)]), w') /\
    it ∈ items /\
    item_id it = DVal (VNum (2 - 1)) /\
    item_field it "productName" = DVal (cell registry_sheet 2 1) /\
    item_field it "claimed" = DVal (VBool true) /\
    item_field it "claimedBy" = DVal (VStr "Alex").
Proof.
  apply (X17_claim_shows_in_the_listing
           Date_toString world registry_sheet 2 (VStr "Alex")).
  - reflexivity.
  - vm_compute. split; discriminate.
  - vm_compute. reflexivity.
  - vm_compute. reflexivity.
  - reflexivity.
Defined.

Lemma X18_other_items_witness :
  exists (w' : World) (before after : list Data),
    getRegistryData Date_toString world =
      (Returns (DObj [("items", DArr before)]), world) /\
    claimItem Date_toString 2 (VStr "Alex") world =
      (Returns (claim_result true "Item claimed successfully"), w') /\
    getRegistryData Date_toString w' =
      (Returns (DObj [("items", DArr after)]), w') /\
    (kettle_item ∈ after <-> kettle_item ∈ before).
Proof.
  apply (X18_claim_keeps_the_other_items
           Date_toString world registry_sheet 2 (VStr "Alex") kettle_item).
  - reflexivity.
  - vm_compute. split; discriminate.
  - vm_compute. reflexivity.
  - vm_compute. discriminate.
Defined.
